(** * Orange.widgets.utils.save.owsavebase : the shared "save" behaviour

    A shallow embedding of [OWSaveBase] (src/Orange/widgets/utils/save/owsavebase.py)
    together with the few Python library functions it calls
    ([str.rfind], [str.split], slicing, [os.path.splitext], [os.path.split]
    and the backtracking matcher of [re.search]), followed by the properties
    of the extension normaliser and of the save state machine. *)

From Stdlib Require Import ZArith Ascii String.
From stdpp Require Import base gmap strings list.

Local Open Scope Z_scope.

(** ** Python strings *)

(** Python [str] values are modelled by [string]; positions are Python
    integers, hence [Z], and a failed search is [-1]. *)
Module Str.

Definition chr_eqb (a b : ascii) : bool := Ascii.eqb a b.

(** [len(s)] *)
Definition len (s : string) : Z := Z.of_nat (String.length s).

(** The first [n] characters, and what follows them. *)
Fixpoint take (n : nat) (s : string) : string :=
  match n, s with
  | S n', String c s' => String c (take n' s')
  | _, _ => EmptyString
  end.

Fixpoint drop (n : nat) (s : string) : string :=
  match n, s with
  | S n', String _ s' => drop n' s'
  | _, _ => s
  end.

(** [s[i:j]], [s[:j]] and [s[i:]] for the non-negative indices that
    [os.path] computes; an index past the end is clipped as Python does. *)
Definition slice (s : string) (i j : Z) : string :=
  take (Z.to_nat (j - i)) (drop (Z.to_nat i) s).
Definition slice_to (s : string) (j : Z) : string := take (Z.to_nat j) s.
Definition slice_from (s : string) (i : Z) : string := drop (Z.to_nat i) s.

(** [s.rfind(c)] for a one-character needle: the highest index holding
    [c], or [-1]. *)
Fixpoint rfind (s : string) (c : ascii) : Z :=
  match s with
  | EmptyString => -1
  | String a s' =>
      let r := rfind s' c in
      if 0 <=? r then r + 1 else if chr_eqb a c then 0 else -1
  end.

(** [c in s] for a one-character needle. *)
Fixpoint contains (s : string) (c : ascii) : bool :=
  match s with
  | EmptyString => false
  | String a s' => chr_eqb a c || contains s' c
  end.

(** [s.split(c)] for a one-character separator: the maximal pieces
    between separators, empty pieces included. *)
Fixpoint split (s : string) (c : ascii) : list string :=
  match s with
  | EmptyString => [EmptyString]
  | String a s' =>
      if chr_eqb a c then EmptyString :: split s' c
      else match split s' c with
           | w :: ws => String a w :: ws
           | [] => [String a EmptyString]
           end
  end.

(** [s.rstrip(c)] for a one-character set. *)
Fixpoint rstrip (s : string) (c : ascii) : string :=
  match s with
  | EmptyString => EmptyString
  | String a s' =>
      match rstrip s' c with
      | EmptyString => if chr_eqb a c then EmptyString else String a EmptyString
      | r => String a r
      end
  end.

(** [s == c * len(s)] *)
Fixpoint all_chr (s : string) (c : ascii) : bool :=
  match s with
  | EmptyString => true
  | String a s' => chr_eqb a c && all_chr s' c
  end.

(** [s.replace(old, new)] for a non-empty [old]: the occurrences of [old]
    are replaced from left to right, without overlap. [skip] counts the
    characters of an occurrence that are still to be passed over. *)
Fixpoint replace_from (old new : string) (skip : nat) (s : string) : string :=
  match s with
  | EmptyString => EmptyString
  | String c s' =>
      match skip with
      | S k => replace_from old new k s'
      | O =>
          if String.prefix old s
          then String.append new (replace_from old new (String.length old - 1) s')
          else String c (replace_from old new 0 s')
      end
  end.

Definition replace (s old new : string) : string := replace_from old new 0 s.

(** [c * n] *)
Fixpoint mul (c : ascii) (n : nat) : string :=
  match n with
  | O => EmptyString
  | S n' => String c (mul c n')
  end.

End Str.

(** ** os.path (the POSIX flavour) *)

Module os_path.

(** [sep] and [extsep] *)
Abbreviation sep := ("/"%char).
Abbreviation extsep := ("."%char).

(** The inner [while filenameIndex < dotIndex] loop of
    [genericpath._splitext]; [n] is [dotIndex - filenameIndex], the number
    of iterations left. *)
Fixpoint _splitext_scan (p : string) (extsep : ascii) (dotIndex : Z)
    (n : nat) (filenameIndex : Z) : string * string :=
  match n with
  | O => (p, Str.slice_to p 0)
  | S n' =>
      if negb (String.eqb (Str.slice p filenameIndex (filenameIndex + 1))
                          (String extsep EmptyString))
      then (Str.slice_to p dotIndex, Str.slice_from p dotIndex)
      else _splitext_scan p extsep dotIndex n' (filenameIndex + 1)
  end.

(** [genericpath._splitext(p, sep, altsep, extsep)] *)
Definition _splitext (p : string) (sep : ascii) (altsep : option ascii)
    (extsep : ascii) : string * string :=
  let sepIndex := Str.rfind p sep in
  let sepIndex :=
    match altsep with
    | Some a => Z.max sepIndex (Str.rfind p a)
    | None => sepIndex
    end in
  let dotIndex := Str.rfind p extsep in
  if sepIndex <? dotIndex then
    _splitext_scan p extsep dotIndex
      (Z.to_nat (dotIndex - (sepIndex + 1))) (sepIndex + 1)
  else (p, Str.slice_to p 0).

(** [posixpath.splitext] *)
Definition splitext (p : string) : string * string :=
  _splitext p sep None extsep.

(** [posixpath.split] *)
Definition split (p : string) : string * string :=
  let i := Str.rfind p sep + 1 in
  let head := Str.slice_to p i in
  let tail := Str.slice_from p i in
  let head :=
    if negb (String.eqb head EmptyString) && negb (Str.all_chr head sep)
    then Str.rstrip head sep else head in
  (head, tail).

(** [posixpath.basename] *)
Definition basename (p : string) : string :=
  Str.slice_from p (Str.rfind p sep + 1).

End os_path.

(** ** re : the backtracking matcher, for the constructs the widget uses *)

Module re.

(** One-character matchers: [.] and an (escaped) literal. *)
Inductive atom : Set :=
| Dot
| Chr (c : ascii).

(** Pattern items: an atom, an atom under greedy [*] or [?], the two ends
    of capture group 1, and the [$] anchor. *)
Inductive node : Set :=
| One (a : atom)
| Star (a : atom)
| Opt (a : atom)
| GroupStart
| GroupEnd
| Dollar.

Definition pattern := list node.

Definition newline : ascii := "010"%char.

(** Without DOTALL, [.] matches anything but a newline. *)
Definition atom_matches (a : atom) (c : ascii) : bool :=
  match a with
  | Dot => negb (Str.chr_eqb c newline)
  | Chr c' => Str.chr_eqb c c'
  end.

(** Without MULTILINE, [$] matches at the end of the string and just
    before a newline that ends the string. *)
Definition at_dollar (s : string) : bool :=
  match s with
  | EmptyString => true
  | String c EmptyString => Str.chr_eqb c newline
  | _ => false
  end.

(** A match object, reduced to [group(1)]: [None] when the group took no
    part in the match. *)
Definition Match := option string.

(** Match [p] at the start of [s]. [opened] is the input as it was when
    group 1 was entered and [g] the text of group 1 once it is closed.
    Greedy items try the longest choice first and give characters back
    one at a time when the rest of the pattern fails. *)
Fixpoint match_here (p : pattern) (opened : string) (g : Match)
    (s : string) {struct p} : option Match :=
  match p with
  | [] => Some g
  | One a :: p' =>
      match s with
      | String c s' =>
          if atom_matches a c then match_here p' opened g s' else None
      | EmptyString => None
      end
  | Opt a :: p' =>
      match s with
      | String c s' =>
          if atom_matches a c then
            match match_here p' opened g s' with
            | Some m => Some m
            | None => match_here p' opened g s
            end
          else match_here p' opened g s
      | EmptyString => match_here p' opened g s
      end
  | Star a :: p' =>
      (fix star (s : string) : option Match :=
         match s with
         | String c s' =>
             if atom_matches a c then
               match star s' with
               | Some m => Some m
               | None => match_here p' opened g s
               end
             else match_here p' opened g s
         | EmptyString => match_here p' opened g s
         end) s
  | GroupStart :: p' => match_here p' s g s
  | GroupEnd :: p' =>
      match_here p' opened
        (Some (Str.take (String.length opened - String.length s) opened)) s
  | Dollar :: p' =>
      if at_dollar s then match_here p' opened g s else None
  end.

(** The input is a closing parenthesis with [$] matching after it. *)
Definition closes (s : string) : bool :=
  match s with
  | String c rest => Str.chr_eqb c ")" && at_dollar rest
  | EmptyString => false
  end.

(** The input has no newline, except possibly as its last character. *)
Fixpoint one_line (s : string) : bool :=
  match s with
  | EmptyString => true
  | String c s' =>
      if Str.chr_eqb c newline then String.eqb s' EmptyString else one_line s'
  end.

(** [re.search]: the match at the leftmost position that has one. *)
Fixpoint search (p : pattern) (s : string) : option Match :=
  match match_here p EmptyString None s with
  | Some m => Some m
  | None =>
      match s with
      | String _ s' => search p s'
      | EmptyString => None
      end
  end.

End re.

(** ** Exceptions and results *)

(** The exceptions that can travel through the widget. [IOError] stands for
    [OSError] (of which it is an alias) and its subclasses and carries the
    text that [str] gives for it. *)
Inductive exception : Set :=
| IOError (msg : string)
| AttributeError (msg : string)
| KeyError (key : string)
| ValueError (msg : string)
| TypeError (msg : string).

Definition is_IOError (e : exception) : bool :=
  match e with IOError _ => true | _ => false end.

Inductive result (A : Type) : Type :=
| Ok (a : A)
| Raise (e : exception).
Arguments Ok {A} a.
Arguments Raise {A} e.

(** ** OWSaveBase *)

Module OWSaveBase.

(** *** The extension normaliser *)

(** The pattern of [_extension_from_filter]: any run of characters, an
    opening parenthesis, an optional star, then group 1 (a dot followed by
    any run of characters), a closing parenthesis and the end anchor. *)
Definition extension_pattern : re.pattern :=
  [ re.Star re.Dot; re.One (re.Chr "("); re.Opt (re.Chr "*");
    re.GroupStart; re.One (re.Chr "."); re.Star re.Dot; re.GroupEnd;
    re.One (re.Chr ")"); re.Dollar ].

(** [re.search(...).group(1)]: no match gives [None], whose [group]
    attribute does not exist. *)
Definition _extension_from_filter (selected_filter : string)
    : result (option string) :=
  match re.search extension_pattern selected_filter with
  | Some m => Ok m
  | None => Raise (AttributeError "'NoneType' object has no attribute 'group'")
  end.

(** The labels that the pattern accepts: they end, up to one final newline,
    in a parenthesis that holds an optional star, a dot and any characters
    of one line. *)
Definition extension_shape (label : string) : Prop :=
  exists pre star body rest,
    label = pre +:+ String "(" (star +:+ String "." (body +:+ rest)) /\
    (star = "" \/ star = "*") /\
    Str.contains body re.newline = false /\
    re.closes rest = true.

(** The [for filt in cls.filters] loop: the union of the dot-separated
    pieces of every filter's extension. *)
Fixpoint collect_extensions (known_extensions : gset string)
    (filters : list string) : result (gset string) :=
  match filters with
  | [] => Ok known_extensions
  | filt :: rest =>
      match _extension_from_filter filt with
      | Ok (Some ext) =>
          collect_extensions
            (known_extensions ∪ list_to_set (Str.split ext ".")) rest
      | Ok None =>
          Raise (AttributeError "'NoneType' object has no attribute 'split'")
      | Raise e => Raise e
      end
  end.

(** Lines 219-223: the collected set, with the empty token removed. *)
Definition known_extensions (filters : list string) : result (gset string) :=
  match collect_extensions ∅ filters with
  | Ok known =>
      Ok (if decide ("" ∈ known) then known ∖ {[ "" ]} else known)
  | Raise e => Raise e
  end.

(** Lines 224-228: the [while True] loop. Each unit of [fuel] pays for one
    iteration; [None] means the loop is still running when the fuel is
    spent. *)
Fixpoint strip_known (fuel : nat) (known : gset string) (filename : string)
    : option string :=
  match fuel with
  | O => None
  | S fuel' =>
      let '(base, ext) := os_path.splitext filename in
      if negb (bool_decide (Str.slice_from ext 1 ∈ known)) then Some filename
      else strip_known fuel' known base
  end.

(** Lines 224-229 for a given set of known tokens: the spec's
    [normalize(path, target_extension, known_extensions)]. *)
Definition normalize (fuel : nat) (path target_extension : string)
    (known : gset string) : option string :=
  match strip_known fuel known path with
  | Some filename => Some (filename +:+ target_extension)
  | None => None
  end.

(** [OWSaveBase._replace_extension], with [cls.filters] given by its labels. *)
Definition _replace_extension (fuel : nat) (filters : list string)
    (filename extension : string) : option (result string) :=
  match known_extensions filters with
  | Ok known =>
      match normalize fuel filename extension known with
      | Some r => Some (Ok r)
      | None => None
      end
  | Raise e => Some (Raise e)
  end.

(** The extension token that the loop tests: [ext[1:]] of the last
    extension of [filename]. *)
Definition last_token (filename : string) : string :=
  Str.slice_from (snd (os_path.splitext filename)) 1.

(** The normaliser in the words of its description: [stripped known p r]
    holds when [r] is reached from [p] by taking off the last extension for
    as long as its token is known, and the token of the last extension of
    [r], if any, is not known. *)
Inductive stripped (known : gset string) : string -> string -> Prop :=
| stripped_stop (p : string) :
    last_token p ∉ known -> stripped known p p
| stripped_step (p r : string) :
    last_token p ∈ known ->
    stripped known (fst (os_path.splitext p)) r ->
    stripped known p r.

(** [".t1.t2...tn"] for the tokens [t1 ... tn]. *)
Fixpoint dotted (tokens : list string) : string :=
  match tokens with
  | [] => ""
  | t :: rest => String "." t +:+ dotted rest
  end.

(** An extension token that [os.path.splitext] can take off again: it holds
    neither a dot nor a path separator. *)
Definition plain_token (t : string) : bool :=
  negb (Str.contains t os_path.extsep) && negb (Str.contains t os_path.sep).

(** The last component of the path holds a character other than a dot. *)
Definition has_stem (p : string) : bool :=
  negb (Str.all_chr (os_path.basename p) os_path.extsep).

(** *** The save state machine *)

(** Calls that leave the widget: a writer's [write(filename, data)],
    tagged with the filter whose writer it is, and the file dialog. *)
Inductive call (Data : Type) : Type :=
| WriteCall (filt filename : string) (data : option Data)
| DialogCall.
Arguments WriteCall {Data} filt filename data.
Arguments DialogCall {Data}.

(** What [dlg.exec()] and the dialog's selection getters give. *)
Inductive dialog_result : Set :=
| Rejected
| Accepted (selectedFile selectedNameFilter : string).

(** Modelled from the spec: the message groups of [widget.OWWidget]
    ([Error], [Warning], [Information]), whose implementation is not part
    of this file. A group maps the name of each active message to the text
    it shows. *)
Abbreviation msg_group := (gmap string string).

(** Modelled from the spec: [group.clear()] deactivates every message of
    the group. *)
Definition group_clear (g : msg_group) : msg_group := ∅.

(** Modelled from the spec: [msg.clear()] deactivates one message. *)
Definition msg_clear (name : string) (g : msg_group) : msg_group :=
  delete name g.

(** Modelled from the spec: [msg(text)] activates the message with the
    given text. *)
Definition msg_raise (name text : string) (g : msg_group) : msg_group :=
  <[name := text]> g.

(** Modelled from the spec: [msg(shown=b)] activates the message when [b]
    is true and deactivates it otherwise. *)
Definition msg_shown (name text : string) (shown : bool) (g : msg_group)
    : msg_group :=
  if shown then msg_raise name text g else msg_clear name g.

Definition no_file_name : string := "no_file_name".
Definition general_error : string := "general_error".
Definition empty_input : string := "empty_input".

(** [x is None] *)
Definition is_None {A : Type} (x : option A) : bool :=
  match x with None => true | Some _ => false end.

Section Widget.

(** The type of the values that arrive on the input. *)
Variable Data : Type.

(** [write(filename, data)] of a writer: [None] when it returns, [Some e]
    when it raises [e]. *)
Definition Writer := string -> option Data -> option exception.

(** The widget's attributes. [calls] is not an attribute: it records, oldest
    first, the calls made so far to the writers and to the dialog. *)
Record widget : Type := Widget {
  data : option Data;
  last_dir : string;
  filter : string;
  filename : string;
  auto_save : bool;
  bt_save : string;
  Error : msg_group;
  Warning : msg_group;
  Information : msg_group;
  calls : list (call Data)
}.

Definition set_filename (v : string) (self : widget) : widget :=
  Widget (data self) (last_dir self) (filter self) v (auto_save self)
    (bt_save self) (Error self) (Warning self) (Information self)
    (calls self).
Definition set_filter (v : string) (self : widget) : widget :=
  Widget (data self) (last_dir self) v (filename self) (auto_save self)
    (bt_save self) (Error self) (Warning self) (Information self)
    (calls self).
Definition set_last_dir (v : string) (self : widget) : widget :=
  Widget (data self) v (filter self) (filename self) (auto_save self)
    (bt_save self) (Error self) (Warning self) (Information self)
    (calls self).
Definition set_bt_save (v : string) (self : widget) : widget :=
  Widget (data self) (last_dir self) (filter self) (filename self)
    (auto_save self) v (Error self) (Warning self) (Information self)
    (calls self).
Definition set_Error (v : msg_group) (self : widget) : widget :=
  Widget (data self) (last_dir self) (filter self) (filename self)
    (auto_save self) (bt_save self) v (Warning self) (Information self)
    (calls self).
Definition set_Warning (v : msg_group) (self : widget) : widget :=
  Widget (data self) (last_dir self) (filter self) (filename self)
    (auto_save self) (bt_save self) (Error self) v (Information self)
    (calls self).
Definition set_Information (v : msg_group) (self : widget) : widget :=
  Widget (data self) (last_dir self) (filter self) (filename self)
    (auto_save self) (bt_save self) (Error self) (Warning self) v
    (calls self).
Definition record_call (c : call Data) (self : widget) : widget :=
  Widget (data self) (last_dir self) (filter self) (filename self)
    (auto_save self) (bt_save self) (Error self) (Warning self)
    (Information self) (calls self ++ [c]).

(** How a method ends: it returns, or an exception leaves it; either way
    the widget is left in some state. *)
Inductive outcome : Type :=
| Returns (self : widget)
| Raises (e : exception) (self : widget).

(** The class attribute [filters], as a dictionary from filter labels to
    writers, in the order of its keys. *)
Variable filters : list (string * Writer).

(** The answer of the file dialog when it is run for the widget in a
    given state. *)
Variable dialog_exec : widget -> dialog_result.

(** [self.filters[key]] *)
Fixpoint filters_lookup (fs : list (string * Writer)) (key : string)
    : option Writer :=
  match fs with
  | [] => None
  | (k, w) :: fs' => if String.eqb k key then Some w else filters_lookup fs' key
  end.

(** The property [writer]. *)
Definition writer (self : widget) : result Writer :=
  match filters_lookup filters (filter self) with
  | Some w => Ok w
  | None => Raise (KeyError (filter self))
  end.

(** [do_save] *)
Definition do_save (self : widget) : outcome :=
  match writer self with
  | Raise e => Raises e self
  | Ok w =>
      let self :=
        record_call (WriteCall (filter self) (filename self) (data self)) self in
      match w (filename self) (data self) with
      | None => Returns self
      | Some e => Raises e self
      end
  end.

(** [_try_save] *)
Definition _try_save (self : widget) : outcome :=
  let self := set_Error (msg_clear general_error (Error self)) self in
  if is_None (data self) || String.eqb (filename self) ""
  then Returns self
  else
    match do_save self with
    | Returns self => Returns self
    | Raises (IOError err_value) self =>
        Returns (set_Error (msg_raise general_error err_value (Error self)) self)
    | Raises e self => Raises e self
    end.

(** [update_messages] *)
Definition update_messages (self : widget) : widget :=
  let self :=
    set_Error
      (msg_shown no_file_name "File name is not set."
         (String.eqb (filename self) "" && auto_save self) (Error self))
      self in
  set_Information
    (msg_shown empty_input "Empty input; nothing was saved."
       (negb (String.eqb (filename self) "") && is_None (data self))
       (Information self))
    self.

(** [update_status]: the default does nothing. *)
Definition update_status (self : widget) : widget := self.

(** [get_save_filename], as written for Linux and unknown platforms. *)
Definition get_save_filename (self : widget) : (string * string) * widget :=
  let answer := dialog_exec self in
  let self := record_call DialogCall self in
  match answer with
  | Rejected => (("", ""), self)
  | Accepted selectedFile selectedNameFilter =>
      ((selectedFile, selectedNameFilter), self)
  end.

(** [save_file_as] *)
Definition save_file_as (self : widget) : outcome :=
  let '((filename', selected_filter), self) := get_save_filename self in
  if String.eqb filename' "" then Returns self
  else
    let self := set_filename filename' self in
    let self := set_filter selected_filter self in
    let self := set_last_dir (fst (os_path.split (filename self))) self in
    let self :=
      set_bt_save ("Save as " +:+ snd (os_path.split filename')) self in
    let self := update_messages self in
    _try_save self.

(** [save_file] *)
Definition save_file (self : widget) : outcome :=
  if String.eqb (filename self) "" then save_file_as self
  else _try_save self.

(** [on_new_input] *)
Definition on_new_input (self : widget) : outcome :=
  let self := set_Error (group_clear (Error self)) self in
  let self := set_Warning (group_clear (Warning self)) self in
  let self := set_Information (group_clear (Information self)) self in
  let self := update_messages self in
  let self := update_status self in
  if auto_save self && negb (String.eqb (filename self) "")
  then save_file self
  else Returns self.

End Widget.

Arguments Widget {Data}.
Arguments data {Data}.
Arguments last_dir {Data}.
Arguments filter {Data}.
Arguments filename {Data}.
Arguments auto_save {Data}.
Arguments bt_save {Data}.
Arguments Error {Data}.
Arguments Warning {Data}.
Arguments Information {Data}.
Arguments calls {Data}.
Arguments set_Error {Data}.
Arguments set_Warning {Data}.
Arguments set_Information {Data}.
Arguments record_call {Data}.
Arguments Returns {Data}.
Arguments Raises {Data}.
Arguments filters_lookup {Data}.
Arguments writer {Data}.
Arguments do_save {Data}.
Arguments _try_save {Data}.
Arguments update_messages {Data}.
Arguments update_status {Data}.
Arguments get_save_filename {Data}.
Arguments save_file_as {Data}.
Arguments save_file {Data}.
Arguments on_new_input {Data}.

(** *** The two file dialogs *)

(** The text of the [TypeError] that [str + None] raises. *)
Definition concatenate_None : string :=
  "can only concatenate str (not " +:+ String "034" "NoneType"
  +:+ String "034" ") to str".

(** [_replace_extension] called with the value of [group(1)], which Python
    lets be [None]: the addition that ends the function then raises. *)
Definition _replace_extension_value (fuel : nat) (filters : list string)
    (filename : string) (extension : option string) : option (result string) :=
  match extension with
  | Some extension => _replace_extension fuel filters filename extension
  | None =>
      match _replace_extension fuel filters filename "" with
      | Some (Ok _) => Some (Raise (TypeError concatenate_None))
      | other => other
      end
  end.

(** The class [SaveFileDialog] of Linux and unknown platforms. *)
Module SaveFileDialog.

Section Dialog.

(** The state of the [QFileDialog] underneath and the methods of it that
    the class calls, with [os.path.isdir]. *)
Variable Q : Type.
Variable super_selectFile : string -> Q -> Q.
Variable super_selectNameFilter : string -> Q -> Q.
Variable selectedFiles : Q -> list string.
Variable isdir : string -> bool.

(** The labels of [OWSaveBase.filters], and the fuel of each call of
    [_replace_extension]. *)
Variable filters : list string.
Variable fuel : nat.

Record dialog : Type := Dialog {
  suffix : option string;
  qt : Q
}.

(** [__init__], on the dialog that [super().__init__] and the two setters
    have made. *)
Definition __init__ (q : Q) : dialog := Dialog (Some "") q.

(** [selectFile] *)
Definition selectFile (filename : string) (self : dialog)
    : option (result dialog) :=
  match _replace_extension_value fuel filters filename (suffix self) with
  | Some (Ok filename) =>
      Some (Ok (Dialog (suffix self) (super_selectFile filename (qt self))))
  | Some (Raise e) => Some (Raise e)
  | None => None
  end.

(** [updateDefaultExtension] *)
Definition updateDefaultExtension (selected_filter : string) (self : dialog)
    : option (result dialog) :=
  match _extension_from_filter selected_filter with
  | Raise e => Some (Raise e)
  | Ok ext =>
      let self := Dialog ext (qt self) in
      match selectedFiles (qt self) with
      | file :: _ =>
          if negb (isdir file) then selectFile file self else Some (Ok self)
      | [] => Some (Ok self)
      end
  end.

(** [selectNameFilter] *)
Definition selectNameFilter (selected_filter : string) (self : dialog)
    : option (result dialog) :=
  let self :=
    Dialog (suffix self) (super_selectNameFilter selected_filter (qt self)) in
  updateDefaultExtension selected_filter self.

End Dialog.

Arguments Dialog {Q}.
Arguments suffix {Q}.
Arguments qt {Q}.
Arguments __init__ {Q}.
Arguments selectFile {Q}.
Arguments updateDefaultExtension {Q}.
Arguments selectNameFilter {Q}.

End SaveFileDialog.

(** [get_save_filename] as written for macOS and Windows. *)
Module NativeDialog.

Section Native.

(** [sys.platform == "darwin"] *)
Variable darwin : bool.

(** [valid_filters()], which are also the labels of [cls.filters];
    [os.path.exists]; whether the answer to the overwrite question is Yes;
    and the fuel of each call of [_replace_extension]. *)
Variable filters : list string.
Variable path_exists : string -> bool.
Variable overwrite : string -> bool.
Variable fuel : nat.

(** [remove_star] *)
Definition remove_star (filt : string) : string :=
  if darwin then Str.replace filt " (*." " (." else filt.

(** [{remove_star(f): f for f in self.valid_filters()}]: a later filter
    with the same key takes the place of an earlier one. *)
Definition no_ext_filters : gmap string string :=
  foldl (fun m f => <[remove_star f := f]> m) ∅ filters.

(** The [while True] loop. Each turn shows a dialog; [answers] holds what
    the dialogs return, in order, and [None] means that the loop is still
    running when they are used up. *)
Fixpoint get_save_filename (answers : list dialog_result)
    : option (result (string * string)) :=
  match answers with
  | [] => None
  | Rejected :: _ => Some (Ok ("", ""))
  | Accepted selectedFile selectedNameFilter :: answers' =>
      match no_ext_filters !! selectedNameFilter with
      | None => Some (Raise (KeyError selectedNameFilter))
      | Some selected_filter =>
          match _extension_from_filter selected_filter with
          | Raise e => Some (Raise e)
          | Ok ext =>
              match _replace_extension_value fuel filters selectedFile ext with
              | Some (Ok filename) =>
                  if negb (path_exists filename) || overwrite filename
                  then Some (Ok (filename, selected_filter))
                  else get_save_filename answers'
              | Some (Raise e) => Some (Raise e)
              | None => None
              end
          end
      end
  end.

End Native.

End NativeDialog.

(** *** Construction, the start directory and the small hooks *)

Section WidgetSetup.

Variable Data : Type.
Variable filters : list (string * Writer Data).

(** How [__init__] ends: with the widget built, or with the [StopIteration]
    of [next(iter(self.filters))] over no filters. *)
Inductive constructed : Type :=
| Built (self : widget Data)
| StopIteration.

(** [__init__], given the four settings as they were loaded. Of the
    controls only the text of the Save button is kept. *)
Definition __init__ (last_dir filter filename : string) (auto_save : bool)
    : constructed :=
  let data := None in
  let chosen :=
    if String.eqb filter "" then
      match filters with
      | [] => None
      | (label, _) :: _ => Some label
      end
    else Some filter in
  match chosen with
  | None => StopIteration
  | Some filter =>
      Built (update_messages
               (Widget data last_dir filter filename auto_save "Save" ∅ ∅ ∅ []))
  end.

(** [os.path.exists], and the module constant [_userhome]. *)
Variable path_exists : string -> bool.
Variable _userhome : string.

(** [initial_start_dir] *)
Definition initial_start_dir (self : widget Data) : string :=
  if negb (String.eqb (filename self) "") &&
     path_exists (fst (os_path.split (filename self)))
  then filename self
  else if negb (String.eqb (last_dir self) "") then last_dir self
  else _userhome.

(** The widget as a method leaves it, whether it returns or raises. *)
Definition outcome_state (o : outcome Data) : widget Data :=
  match o with
  | Returns self => self
  | Raises _ self => self
  end.

(** [suggested_name] *)
Definition suggested_name : string := "".

(** [valid_filters] and [default_valid_filter] *)
Definition valid_filters (self : widget Data) : list string := map fst filters.
Definition default_valid_filter (self : widget Data) : string := filter self.

End WidgetSetup.

Arguments Built {Data}.
Arguments StopIteration {Data}.
Arguments __init__ {Data}.
Arguments initial_start_dir {Data}.
Arguments outcome_state {Data}.
Arguments valid_filters {Data}.
Arguments default_valid_filter {Data}.

End OWSaveBase.

(** ** Sample values *)

Module Samples.

(** A writer that fails with an I/O error, one that fails with another
    exception, and a registry holding both. *)
Definition failing_writer : OWSaveBase.Writer nat :=
  fun _ _ => Some (IOError "disk full").
Definition broken_writer : OWSaveBase.Writer nat :=
  fun _ _ => Some (ValueError "bad value").
Definition tab_filter : string := "Tab-separated values (*.tab)".
Definition csv_filter : string := "Comma-separated values (*.csv)".
Definition filters : list (string * OWSaveBase.Writer nat) :=
  [(tab_filter, failing_writer); (csv_filter, broken_writer)].

(** A writer that returns, and a registry with it. *)
Definition good_writer : OWSaveBase.Writer nat := fun _ _ => None.
Definition good_filters : list (string * OWSaveBase.Writer nat) :=
  [(tab_filter, good_writer)].

(** A user who accepts the dialog with a fixed answer. *)
Definition accept (name filt : string)
    : OWSaveBase.widget nat -> OWSaveBase.dialog_result :=
  fun _ => OWSaveBase.Accepted name filt.

(** A user who always cancels the dialog. *)
Definition cancel : OWSaveBase.widget nat -> OWSaveBase.dialog_result :=
  fun _ => OWSaveBase.Rejected.

(** A widget with the given data, filter, file name, auto-save flag and
    errors, and nothing else shown or called. *)
Definition a_widget (d : option nat) (filt name : string) (auto : bool)
    (errors : gmap string string) : OWSaveBase.widget nat :=
  OWSaveBase.Widget d "/home" filt name auto "Save" errors ∅ ∅ [].

(** The labels of a registry for the tab and tab.gz formats. *)
Definition labels : list string :=
  ["Tab-separated values (*.tab)"; "Compressed tab-separated values (*.tab.gz)"].

End Samples.

(** * Properties *)

(** ** Worked examples *)

Example replace_ex1 : Str.replace "Tab (*.tab)" " (*." " (." = "Tab (.tab)".
Proof. reflexivity. Qed.
Example replace_ex2 : Str.replace "aaa" "aa" "b" = "ba".
Proof. reflexivity. Qed.
Example splitext_ex1 : os_path.splitext "report.tab.gz" = ("report.tab", ".gz").
Proof. reflexivity. Qed.
Example splitext_ex2 : os_path.splitext "dir.d/.bashrc" = ("dir.d/.bashrc", "").
Proof. reflexivity. Qed.
Example splitext_ex3 : os_path.splitext "name." = ("name", ".").
Proof. reflexivity. Qed.
Example splitext_ex4 : os_path.splitext "/a/..x.y" = ("/a/..x", ".y").
Proof. reflexivity. Qed.
Example split_ex1 : os_path.split "/tmp/x.csv" = ("/tmp", "x.csv").
Proof. reflexivity. Qed.
Example split_ex2 : os_path.split "/x.csv" = ("/", "x.csv").
Proof. reflexivity. Qed.
Example str_split_ex : Str.split ".tab.gz" "."%char = [""; "tab"; "gz"].
Proof. reflexivity. Qed.

Example ext_ex1 : OWSaveBase._extension_from_filter "Tab-separated values (*.tab)" = Ok (Some ".tab").
Proof. reflexivity. Qed.
Example ext_ex2 : OWSaveBase._extension_from_filter "Compressed (*.tab.gz)" = Ok (Some ".tab.gz").
Proof. reflexivity. Qed.
Example ext_ex3 : OWSaveBase._extension_from_filter "Tab (.tab)" = Ok (Some ".tab").
Proof. reflexivity. Qed.
Example ext_ex4 : OWSaveBase._extension_from_filter "A (*.a(.b)" = Ok (Some ".b").
Proof. reflexivity. Qed.
Example ext_ex5 : exists e, OWSaveBase._extension_from_filter "A (*.tab" = Raise e.
Proof. eexists. reflexivity. Qed.
Example norm_ex1 : OWSaveBase.normalize 20 "report.tab.gz" ".csv" {[ "tab"; "gz" ]} = Some "report.csv".
Proof. vm_compute. reflexivity. Qed.
Example norm_ex2 : OWSaveBase.normalize 20 "report.v2" ".csv" {[ "tab"; "gz" ]} = Some "report.v2.csv".
Proof. vm_compute. reflexivity. Qed.
Example repl_ex1 : OWSaveBase._replace_extension 20 ["Tab (*.tab)"; "Gz (*.tab.gz)"] "report.tab.gz" ".csv" = Some (Ok "report.csv").
Proof. vm_compute. reflexivity. Qed.

Import OWSaveBase.

(** ** Strings *)

Section StrFacts.

Implicit Types (s t u : string) (c : ascii).

Lemma app_cons c s t : String c s +:+ t = String c (s +:+ t).
Proof. reflexivity. Qed.

Lemma app_nil_l t : "" +:+ t = t.
Proof. reflexivity. Qed.

Lemma app_nil_r s : s +:+ "" = s.
Proof. induction s as [|a s IH]; [done|]. by rewrite app_cons, IH. Qed.

Lemma app_assoc s t u : (s +:+ t) +:+ u = s +:+ t +:+ u.
Proof. induction s as [|a s IH]; [done|]. by rewrite !app_cons, IH. Qed.

Lemma length_app s t :
  String.length (s +:+ t) = (String.length s + String.length t)%nat.
Proof. induction s as [|a s IH]; [done|]. rewrite app_cons. cbn. by rewrite IH. Qed.

Lemma take_app s t : Str.take (String.length s) (s +:+ t) = s.
Proof. induction s as [|a s IH]; [by destruct t|]. rewrite app_cons. cbn. by rewrite IH. Qed.

Lemma drop_app s t : Str.drop (String.length s) (s +:+ t) = t.
Proof. induction s as [|a s IH]; [by destruct t|]. rewrite app_cons. by cbn. Qed.

Lemma take_drop n s : Str.take n s +:+ Str.drop n s = s.
Proof.
  revert s. induction n as [|n IH]; intros [|a s]; try done.
  cbn. by rewrite app_cons, IH.
Qed.

Lemma length_take n s :
  (n <= String.length s)%nat -> String.length (Str.take n s) = n.
Proof.
  revert s. induction n as [|n IH]; intros [|a s] H; cbn in *; try done; try lia.
  rewrite IH; lia.
Qed.

Lemma length_drop n s :
  String.length (Str.drop n s) = (String.length s - n)%nat.
Proof. revert s. induction n as [|n IH]; intros [|a s]; cbn; try done. Qed.

Lemma chr_eqb_refl c : Str.chr_eqb c c = true.
Proof. apply Ascii.eqb_refl. Qed.

Lemma chr_eqb_eq a c : Str.chr_eqb a c = true <-> a = c.
Proof. apply Ascii.eqb_eq. Qed.

Lemma chr_eqb_neq a c : Str.chr_eqb a c = false <-> a <> c.
Proof. apply Ascii.eqb_neq. Qed.

Lemma contains_app s t c :
  Str.contains (s +:+ t) c = Str.contains s c || Str.contains t c.
Proof.
  induction s as [|a s IH]; [done|]. rewrite app_cons. cbn.
  by rewrite IH, orb_assoc.
Qed.

Lemma all_chr_app s t c :
  Str.all_chr (s +:+ t) c = Str.all_chr s c && Str.all_chr t c.
Proof.
  induction s as [|a s IH]; [done|]. rewrite app_cons. cbn.
  by rewrite IH, andb_assoc.
Qed.

(** *** [rfind] *)

Lemma rfind_range s c : -1 <= Str.rfind s c < Str.len s.
Proof.
  unfold Str.len. induction s as [|a s IH]; cbn [Str.rfind String.length]; [lia|].
  destruct (Z.leb_spec 0 (Str.rfind s c)); [lia|].
  destruct (Str.chr_eqb a c); lia.
Qed.

Lemma rfind_absent s c : Str.contains s c = false -> Str.rfind s c = -1.
Proof.
  induction s as [|a s IH]; [done|]. cbn. intros [Ha Hs]%orb_false_elim.
  by rewrite (IH Hs), Ha.
Qed.

Lemma rfind_present s c : Str.contains s c = true -> 0 <= Str.rfind s c.
Proof.
  induction s as [|a s IH]; [done|]. cbn. intros H.
  destruct (Z.leb_spec 0 (Str.rfind s c)); [lia|].
  destruct (Str.chr_eqb a c); [lia|]. cbn in H. specialize (IH H). lia.
Qed.

Lemma rfind_app_present s t c :
  Str.contains t c = true ->
  Str.rfind (s +:+ t) c = Str.len s + Str.rfind t c.
Proof.
  intros Ht. pose proof (rfind_present _ _ Ht) as H0. unfold Str.len.
  induction s as [|a s IH]; [rewrite app_nil_l; cbn; lia|]. rewrite app_cons.
  cbn [Str.rfind String.length]. rewrite IH.
  destruct (Z.leb_spec 0 (Z.of_nat (String.length s) + Str.rfind t c)); lia.
Qed.

Lemma rfind_app_absent s t c :
  Str.contains t c = false -> Str.rfind (s +:+ t) c = Str.rfind s c.
Proof.
  intros Ht. induction s as [|a s IH].
  - by apply rfind_absent.
  - rewrite app_cons. cbn [Str.rfind]. by rewrite IH.
Qed.

Lemma rfind_app_last s t c :
  Str.contains t c = false -> Str.rfind (s +:+ String c t) c = Str.len s.
Proof.
  intros Ht. rewrite rfind_app_present.
  - cbn [Str.rfind]. rewrite (rfind_absent _ _ Ht), chr_eqb_refl. cbn. lia.
  - cbn. by rewrite chr_eqb_refl.
Qed.

Lemma rfind_decompose s c :
  0 <= Str.rfind s c ->
  exists a t, s = a +:+ String c t /\ Str.contains t c = false /\
              Str.rfind s c = Str.len a.
Proof.
  induction s as [|x s IH]; cbn [Str.rfind]; [lia|].
  destruct (Z.leb_spec 0 (Str.rfind s c)) as [Hr|Hr].
  - intros _. destruct (IH Hr) as (a & t & -> & Ht & Hlen).
    exists (String x a), t. rewrite app_cons. split; [done|]. split; [done|].
    rewrite Hlen. unfold Str.len. cbn [String.length]. lia.
  - destruct (Str.chr_eqb x c) eqn:Hx; [|lia]. intros _.
    apply chr_eqb_eq in Hx as ->. exists "", s. split; [done|]. split; [|done].
    destruct (Str.contains s c) eqn:Hc; [|done].
    apply rfind_present in Hc. lia.
Qed.

Lemma len_app s t : Str.len (s +:+ t) = Str.len s + Str.len t.
Proof. unfold Str.len. rewrite length_app. lia. Qed.

Lemma slice_to_len s t : Str.slice_to (s +:+ t) (Str.len s) = s.
Proof. unfold Str.slice_to, Str.len. rewrite Nat2Z.id. apply take_app. Qed.

Lemma slice_from_len s t : Str.slice_from (s +:+ t) (Str.len s) = t.
Proof. unfold Str.slice_from, Str.len. rewrite Nat2Z.id. apply drop_app. Qed.

Lemma slice_one s c t :
  Str.slice (s +:+ String c t) (Str.len s) (Str.len s + 1) = String c "".
Proof.
  unfold Str.slice. fold (Str.slice_from (s +:+ String c t) (Str.len s)).
  rewrite slice_from_len.
  replace (Str.len s + 1 - Str.len s) with 1 by lia. by destruct t.
Qed.

Lemma slice_from_split s : Str.slice_to s (Str.rfind s os_path.sep + 1)
                           +:+ os_path.basename s = s.
Proof. apply take_drop. Qed.

End StrFacts.

(** ** [os.path.splitext] *)

Section SplitextFacts.

Implicit Types (p s t : string) (c : ascii).

(** The scan over [x], the characters between the last separator and the
    last dot: the split is made when one of them is not a dot. *)
Lemma splitext_scan_spec d x rest c dotIndex :
  os_path._splitext_scan (d +:+ x +:+ rest) c dotIndex (String.length x) (Str.len d)
  = if Str.all_chr x c then (d +:+ x +:+ rest, "")
    else (Str.slice_to (d +:+ x +:+ rest) dotIndex,
          Str.slice_from (d +:+ x +:+ rest) dotIndex).
Proof.
  revert d. induction x as [|a x IH]; intros d; [done|].
  cbn [os_path._splitext_scan String.length Str.all_chr].
  rewrite app_cons, slice_one.
  destruct (String.eqb_spec (String a "") (String c "")) as [Heq|Hne]; cbn [negb].
  - injection Heq as ->. rewrite chr_eqb_refl. cbn [andb].
    specialize (IH (d +:+ String c "")).
    rewrite len_app, !app_assoc in IH. exact IH.
  - destruct (Str.chr_eqb a c) eqn:Hac; [|done].
    apply chr_eqb_eq in Hac as ->. done.
Qed.

Lemma basename_length p :
  String.length (os_path.basename p)
  = Z.to_nat (Str.len p - (Str.rfind p os_path.sep + 1)).
Proof.
  unfold os_path.basename, Str.slice_from, Str.len. rewrite length_drop.
  pose proof (rfind_range p os_path.sep). lia.
Qed.

Lemma path_decompose p :
  exists d x, p = d +:+ x /\ Str.rfind p os_path.sep + 1 = Str.len d /\
              os_path.basename p = x.
Proof.
  exists (Str.slice_to p (Str.rfind p os_path.sep + 1)), (os_path.basename p).
  split; [by rewrite slice_from_split|]. split; [|done].
  pose proof (rfind_range p os_path.sep).
  unfold Str.slice_to, Str.len in *. rewrite length_take; lia.
Qed.

(** The path ends in a dot and a plain token: the token is taken off
    exactly when what comes before has a stem. *)
Lemma splitext_plain p t :
  plain_token t = true ->
  os_path.splitext (p +:+ String "." t)
  = if has_stem p then (p, String "." t) else (p +:+ String "." t, "").
Proof.
  unfold plain_token. intros [Hdot Hsep]%andb_prop.
  apply negb_true_iff in Hdot, Hsep.
  unfold os_path.splitext, os_path._splitext.
  rewrite (rfind_app_last p t _ Hdot).
  rewrite (rfind_app_absent p (String "." t) os_path.sep) by exact Hsep.
  pose proof (rfind_range p os_path.sep) as Hr.
  destruct (Z.ltb_spec (Str.rfind p os_path.sep) (Str.len p)); [|lia].
  rewrite <- basename_length. unfold has_stem.
  destruct (path_decompose p) as (d & x & Hp & Hd & Hx).
  rewrite Hd, Hx, Hp, app_assoc, splitext_scan_spec.
  destruct (Str.all_chr x os_path.extsep); cbn [negb]; [done|].
  by rewrite <- app_assoc, slice_to_len, slice_from_len.
Qed.

(** What [splitext] returns: the path whole, or the path cut before a dot
    that is followed by a plain token and preceded by a stem. *)
Lemma splitext_inv p :
  os_path.splitext p = (p, "") \/
  exists b t, p = b +:+ String "." t /\ plain_token t = true /\
              has_stem b = true /\ os_path.splitext p = (b, String "." t).
Proof.
  destruct (Z.leb_spec 0 (Str.rfind p os_path.extsep)) as [Hdot|Hdot].
  - destruct (rfind_decompose _ _ Hdot) as (b & t & -> & Ht & Hlen).
    destruct (Str.contains t os_path.sep) eqn:Hsep.
    + left. unfold os_path.splitext, os_path._splitext.
      rewrite Hlen.
      rewrite (rfind_app_present b (String "." t) os_path.sep) by exact Hsep.
      pose proof (rfind_present (String "." t) os_path.sep Hsep).
      destruct (Z.ltb_spec (Str.len b + Str.rfind (String "." t) os_path.sep) (Str.len b)); [lia|done].
    + assert (Hpl : plain_token t = true).
      { unfold plain_token. by rewrite Ht, Hsep. }
      rewrite (splitext_plain b t Hpl).
      destruct (has_stem b) eqn:Hst; [right | by left].
      by exists b, t.
  - left. unfold os_path.splitext, os_path._splitext.
    pose proof (rfind_range p os_path.sep).
    destruct (Z.ltb_spec (Str.rfind p os_path.sep) (Str.rfind p os_path.extsep)); [lia|done].
Qed.

End SplitextFacts.

(** ** The pattern of [_extension_from_filter] *)

Section RegexFacts.

Implicit Types (s t q : string) (c : ascii) (m : re.Match).

Local Abbreviation tail3 := [re.GroupEnd; re.One (re.Chr ")"); re.Dollar].
Local Abbreviation inner_re := (re.Star re.Dot :: tail3).
Local Abbreviation group_re := (re.GroupStart :: re.One (re.Chr ".") :: inner_re).
Local Abbreviation paren_re :=
  (re.One (re.Chr "(") :: re.Opt (re.Chr "*") :: group_re).
Local Abbreviation paren s := (re.match_here paren_re "" None s).
Local Abbreviation outer s := (re.match_here extension_pattern "" None s).

Lemma star_cons a (p : re.pattern) opened g c s :
  re.match_here (re.Star a :: p) opened g (String c s) =
    if re.atom_matches a c then
      match re.match_here (re.Star a :: p) opened g s with
      | Some m => Some m
      | None => re.match_here p opened g (String c s)
      end
    else re.match_here p opened g (String c s).
Proof. reflexivity. Qed.

Lemma star_nil a (p : re.pattern) opened g :
  re.match_here (re.Star a :: p) opened g "" = re.match_here p opened g "".
Proof. reflexivity. Qed.

Lemma tail3_spec opened g s :
  re.match_here tail3 opened g s =
    if re.closes s
    then Some (Some (Str.take (String.length opened - String.length s) opened))
    else None.
Proof.
  destruct s as [|c rest]; [done|]. cbn.
  destruct (Str.chr_eqb c ")"); [|done]. cbn. by destruct (re.at_dollar rest).
Qed.

Lemma dot_matches c :
  re.atom_matches re.Dot c = negb (Str.chr_eqb c re.newline).
Proof. reflexivity. Qed.

Lemma closes_inv s :
  re.closes s = true -> s = ")" \/ s = String ")" (String re.newline "").
Proof.
  destruct s as [|c rest]; [done|]. cbn.
  intros [Hc Hd]%andb_prop. apply chr_eqb_eq in Hc as ->.
  destruct rest as [|c' [|]]; [by left| |done].
  cbn in Hd. apply chr_eqb_eq in Hd as ->. by right.
Qed.

(** The greedy run inside the group gives back just the closing
    parenthesis (and the final newline after it). *)
Lemma inner_ok opened g x rest :
  Str.contains x re.newline = false -> re.closes rest = true ->
  re.match_here inner_re opened g (x +:+ rest)
  = Some (Some (Str.take (String.length opened - String.length rest) opened)).
Proof.
  intros Hx Hrest. induction x as [|c x IH].
  - rewrite app_nil_l.
    destruct (closes_inv _ Hrest) as [-> | ->];
      rewrite star_cons; cbn [re.atom_matches Str.chr_eqb Ascii.eqb negb];
      by vm_compute.
  - rewrite app_cons, star_cons, dot_matches.
    cbn in Hx. apply orb_false_elim in Hx as [Hc Hx].
    rewrite Hc. cbn [negb]. by rewrite (IH Hx).
Qed.

Lemma inner_inv opened g s m :
  re.match_here inner_re opened g s = Some m ->
  exists x rest, s = x +:+ rest /\ Str.contains x re.newline = false /\
    re.closes rest = true /\
    m = Some (Str.take (String.length opened - String.length rest) opened).
Proof.
  induction s as [|c s IH].
  - rewrite star_nil, tail3_spec. done.
  - rewrite star_cons, dot_matches, tail3_spec.
    destruct (Str.chr_eqb c re.newline) eqn:Hc; cbn [negb].
    + apply chr_eqb_eq in Hc as ->. done.
    + destruct (re.match_here inner_re opened g s) as [m'|] eqn:Hs.
      * intros [= <-]. destruct (IH eq_refl) as (x & rest & -> & Hx & Hr & ->).
        exists (String c x), rest. rewrite app_cons. split; [done|].
        split; [|done]. cbn. by rewrite Hc, Hx.
      * destruct (re.closes (String c s)) eqn:Hcl; [|done]. intros [= <-].
        by exists "", (String c s).
Qed.

Lemma take_front s t :
  Str.take (String.length (s +:+ t) - String.length t) (s +:+ t) = s.
Proof. rewrite length_app, Nat.add_sub. apply take_app. Qed.

Lemma group_spec opened g s :
  re.match_here group_re opened g s =
    match s with
    | String c body =>
        if Str.chr_eqb c "." then re.match_here inner_re s g body else None
    | EmptyString => None
    end.
Proof. by destruct s. Qed.

Lemma group_ok opened g x rest :
  Str.contains x re.newline = false -> re.closes rest = true ->
  re.match_here group_re opened g (String "." (x +:+ rest))
  = Some (Some (String "." x)).
Proof.
  intros Hx Hr. rewrite group_spec. cbn [Str.chr_eqb Ascii.eqb Bool.eqb].
  rewrite (inner_ok _ _ _ _ Hx Hr). do 2 f_equal.
  rewrite <- app_cons. apply take_front.
Qed.

Lemma group_inv opened g s m :
  re.match_here group_re opened g s = Some m ->
  exists x rest, s = String "." (x +:+ rest) /\
    Str.contains x re.newline = false /\ re.closes rest = true /\
    m = Some (String "." x).
Proof.
  rewrite group_spec. destruct s as [|c body]; [done|].
  destruct (Str.chr_eqb c ".") eqn:Hc; [|done].
  apply chr_eqb_eq in Hc as ->.
  intros (x & rest & -> & Hx & Hr & ->)%inner_inv.
  exists x, rest. split; [done|]. split; [done|]. split; [done|].
  f_equal. rewrite <- app_cons. apply take_front.
Qed.

Lemma paren_spec opened g s :
  re.match_here paren_re opened g s =
    match s with
    | String c s1 =>
        if Str.chr_eqb c "(" then
          match s1 with
          | String c1 s2 =>
              if Str.chr_eqb c1 "*" then
                match re.match_here group_re opened g s2 with
                | Some m => Some m
                | None => re.match_here group_re opened g s1
                end
              else re.match_here group_re opened g s1
          | EmptyString => re.match_here group_re opened g s1
          end
        else None
    | EmptyString => None
    end.
Proof. destruct s as [|c [|c1 s2]]; reflexivity. Qed.

Lemma paren_ok opened g star x rest :
  star = "" \/ star = "*" ->
  Str.contains x re.newline = false -> re.closes rest = true ->
  re.match_here paren_re opened g (String "(" (star +:+ String "." (x +:+ rest)))
  = Some (Some (String "." x)).
Proof.
  intros Hstar Hx Hr. rewrite paren_spec.
  cbn [Str.chr_eqb Ascii.eqb Bool.eqb].
  destruct Hstar as [-> | ->].
  - rewrite app_nil_l. cbn [Str.chr_eqb Ascii.eqb Bool.eqb].
    apply (group_ok _ _ _ _ Hx Hr).
  - rewrite app_cons, app_nil_l. cbn [Str.chr_eqb Ascii.eqb Bool.eqb].
    by rewrite (group_ok _ _ _ _ Hx Hr).
Qed.

Lemma paren_inv opened g s m :
  re.match_here paren_re opened g s = Some m ->
  exists star x rest,
    s = String "(" (star +:+ String "." (x +:+ rest)) /\
    (star = "" \/ star = "*") /\
    Str.contains x re.newline = false /\ re.closes rest = true /\
    m = Some (String "." x).
Proof.
  rewrite paren_spec. destruct s as [|c s1]; [done|].
  destruct (Str.chr_eqb c "(") eqn:Hc; [|done]. apply chr_eqb_eq in Hc as ->.
  assert (Hplain : re.match_here group_re opened g s1 = Some m ->
    exists star x rest,
      String "(" s1 = String "(" (star +:+ String "." (x +:+ rest)) /\
      (star = "" \/ star = "*") /\
      Str.contains x re.newline = false /\ re.closes rest = true /\
      m = Some (String "." x)).
  { intros (x & rest & -> & Hx & Hr & ->)%group_inv.
    exists "", x, rest. rewrite app_nil_l. by eauto 6. }
  destruct s1 as [|c1 s2]; [done|].
  destruct (Str.chr_eqb c1 "*") eqn:Hc1; [|done].
  apply chr_eqb_eq in Hc1 as ->.
  destruct (re.match_here group_re opened g s2) as [m'|] eqn:Hs2; [|done].
  intros [= <-]. apply group_inv in Hs2 as (x & rest & -> & Hx & Hr & ->).
  exists "*", x, rest. rewrite app_cons, app_nil_l. by eauto 6.
Qed.

Lemma one_line_app s t :
  Str.contains s re.newline = false -> re.one_line (s +:+ t) = re.one_line t.
Proof.
  induction s as [|c s IH]; [done|]. cbn [Str.contains].
  intros [Hc Hs]%orb_false_elim. rewrite app_cons. cbn [re.one_line].
  by rewrite Hc, IH.
Qed.

Lemma one_line_closes s : re.closes s = true -> re.one_line s = true.
Proof. by intros [-> | ->]%closes_inv. Qed.

Lemma one_line_prefix q s :
  re.one_line (q +:+ s) = true -> s <> "" ->
  Str.contains q re.newline = false.
Proof.
  intros H Hs. induction q as [|c q IH]; [done|].
  rewrite app_cons in H. cbn [re.one_line] in H. cbn [Str.contains].
  destruct (Str.chr_eqb c re.newline); cbn [orb].
  - apply String.eqb_eq in H. destruct q; [done | discriminate H].
  - by apply IH.
Qed.

Lemma paren_one_line s m : paren s = Some m -> re.one_line s = true.
Proof.
  intros (star & x & rest & -> & Hstar & Hx & Hr & _)%paren_inv.
  rewrite <- app_cons, <- (app_cons "." x rest), <- app_assoc.
  rewrite one_line_app; [by apply one_line_closes|].
  rewrite contains_app. cbn [Str.contains].
  rewrite Hx. by destruct Hstar as [-> | ->].
Qed.

(** *** The leading greedy run and the search *)

Lemma outer_cons c s :
  outer (String c s) =
    if negb (Str.chr_eqb c re.newline) then
      match outer s with
      | Some m => Some m
      | None => paren (String c s)
      end
    else paren (String c s).
Proof. reflexivity. Qed.

Lemma outer_nil : outer "" = None.
Proof. reflexivity. Qed.

Lemma paren_first c s m : paren (String c s) = Some m -> c = "("%char.
Proof.
  rewrite paren_spec. destruct (Str.chr_eqb c "(") eqn:Hc; [|done].
  by apply chr_eqb_eq in Hc.
Qed.

(** No opening parenthesis, no match. *)
Lemma outer_no_paren s : Str.contains s "(" = false -> outer s = None.
Proof.
  induction s as [|c s IH]; [done|]. cbn [Str.contains].
  intros [Hc Hs]%orb_false_elim. rewrite outer_cons, (IH Hs).
  assert (paren (String c s) = None) as ->.
  { destruct (paren (String c s)) eqn:Hp; [|done].
    apply paren_first in Hp as ->. by rewrite chr_eqb_refl in Hc. }
  by destruct (negb _).
Qed.

(** A match further to the right within the line is preferred. *)
Lemma outer_pre q s m :
  Str.contains q re.newline = false -> outer s = Some m ->
  outer (q +:+ s) = Some m.
Proof.
  intros Hq Hs. induction q as [|c q IH]; [done|].
  cbn [Str.contains] in Hq. apply orb_false_elim in Hq as [Hc Hq].
  rewrite app_cons, outer_cons, Hc. cbn [negb]. by rewrite (IH Hq).
Qed.

Lemma outer_inv s m :
  outer s = Some m ->
  exists pre s', s = pre +:+ s' /\ Str.contains pre re.newline = false /\
                 paren s' = Some m.
Proof.
  induction s as [|c s IH]; [done|]. rewrite outer_cons.
  destruct (Str.chr_eqb c re.newline) eqn:Hc; cbn [negb].
  - intros H. by exists "", (String c s).
  - destruct (outer s) as [m'|] eqn:Hs.
    + intros [= <-]. destruct (IH eq_refl) as (pre & s' & -> & Hpre & Hp).
      exists (String c pre), s'. rewrite app_cons. split; [done|]. split; [|done].
      cbn. by rewrite Hc, Hpre.
    + intros H. by exists "", (String c s).
Qed.

Lemma outer_unique s m :
  s <> "" -> outer s = Some m ->
  forall q m', outer (q +:+ s) = Some m' -> m' = m.
Proof.
  intros Hne Hs q. induction q as [|c q IH]; intros m'.
  - rewrite app_nil_l, Hs. by intros [= <-].
  - rewrite app_cons, outer_cons.
    assert (Hp : paren (String c (q +:+ s)) = Some m' ->
                 Str.chr_eqb c re.newline = false /\ outer (q +:+ s) = Some m).
    { intros Hp. apply paren_one_line in Hp. rewrite <- app_cons in Hp.
      apply one_line_prefix in Hp; [|done].
      cbn [Str.contains] in Hp. apply orb_false_elim in Hp as [Hc Hq].
      split; [done|]. by apply outer_pre. }
    destruct (Str.chr_eqb c re.newline) eqn:Hc; cbn [negb].
    + by intros [? _]%Hp.
    + destruct (outer (q +:+ s)) as [m''|] eqn:Ho.
      * intros [= <-]. by apply IH.
      * by intros [_ ?]%Hp.
Qed.

Lemma search_cons c s :
  re.search extension_pattern (String c s) =
    match outer (String c s) with
    | Some m => Some m
    | None => re.search extension_pattern s
    end.
Proof. reflexivity. Qed.

Lemma search_outer s m :
  outer s = Some m -> re.search extension_pattern s = Some m.
Proof. destruct s; [done|]. rewrite search_cons. by intros ->. Qed.

Lemma search_ok q s m :
  s <> "" -> outer s = Some m ->
  re.search extension_pattern (q +:+ s) = Some m.
Proof.
  intros Hne Hs. induction q as [|c q IH].
  - by apply search_outer.
  - rewrite app_cons, search_cons, <- app_cons.
    destruct (outer (String c q +:+ s)) as [m'|] eqn:Hm; [|done].
    f_equal. by eapply outer_unique.
Qed.

Lemma search_inv s m :
  re.search extension_pattern s = Some m ->
  exists q s', s = q +:+ s' /\ outer s' = Some m.
Proof.
  induction s as [|c s IH]; [done|]. rewrite search_cons.
  destruct (outer (String c s)) as [m'|] eqn:Hm.
  - intros [= <-]. by exists "", (String c s).
  - intros (q & s' & -> & Hs')%IH. exists (String c q), s'. by rewrite app_cons.
Qed.

Lemma search_app q s :
  is_Some (re.search extension_pattern s) ->
  is_Some (re.search extension_pattern (q +:+ s)).
Proof.
  intros Hs. induction q as [|c q IH]; [done|].
  rewrite app_cons, search_cons. by destruct (outer _).
Qed.

(** *** [_extension_from_filter] *)

(** The label ends in a parenthesis with a star, a dot and a body that
    has neither an opening parenthesis nor a newline: the extension is
    the dot and the body. *)
Lemma extension_from_filter_ok prefix body :
  Str.contains body "(" = false -> Str.contains body re.newline = false ->
  _extension_from_filter (prefix +:+ String "(" (String "*" (String "." body)) +:+ ")")
  = Ok (Some (String "." body)).
Proof.
  intros Hparen Hnl. unfold _extension_from_filter.
  rewrite !app_cons.
  erewrite (search_ok prefix); [reflexivity|done|].
  rewrite outer_cons. cbn [Str.chr_eqb Ascii.eqb Bool.eqb negb andb].
  rewrite outer_no_paren.
  - apply (paren_ok "" None "*" body ")"); [by right|done|done].
  - cbn [Str.contains]. rewrite contains_app. cbn. by rewrite Hparen.
Qed.

Lemma extension_from_filter_inv label m :
  _extension_from_filter label = Ok m ->
  exists pre star body rest,
    label = pre +:+ String "(" (star +:+ String "." (body +:+ rest)) /\
    (star = "" \/ star = "*") /\
    Str.contains body re.newline = false /\ re.closes rest = true /\
    m = Some (String "." body).
Proof.
  unfold _extension_from_filter.
  destruct (re.search extension_pattern label) as [m'|] eqn:Hs; [|done].
  intros [= <-]. apply search_inv in Hs as (q & s' & -> & Hs').
  apply outer_inv in Hs' as (pre & s'' & -> & _ & Hp).
  apply paren_inv in Hp as (star & x & rest & -> & Hstar & Hx & Hr & ->).
  exists (q +:+ pre), star, x, rest. by rewrite app_assoc.
Qed.

Lemma extension_from_filter_shape label :
  extension_shape label -> exists ext, _extension_from_filter label = Ok (Some ext).
Proof.
  intros (pre & star & body & rest & -> & Hstar & Hbody & Hrest).
  assert (Hsome : is_Some (re.search extension_pattern
            (pre +:+ String "(" (star +:+ String "." (body +:+ rest))))).
  { apply search_app.
    assert (is_Some (outer (String "(" (star +:+ String "." (body +:+ rest))))) as [m Hm].
    { rewrite outer_cons. cbn [Str.chr_eqb Ascii.eqb Bool.eqb negb andb].
      rewrite (paren_ok "" None star body rest Hstar Hbody Hrest).
      by destruct (outer _). }
    rewrite (search_outer _ _ Hm). by eexists. }
  destruct Hsome as [m Hm]. unfold _extension_from_filter in *.
  pose proof (extension_from_filter_inv
    (pre +:+ String "(" (star +:+ String "." (body +:+ rest))) m) as Hinv.
  unfold _extension_from_filter in Hinv. rewrite Hm in *.
  destruct (Hinv eq_refl) as (_ & _ & b & _ & _ & _ & _ & _ & ->).
  by eexists.
Qed.

(** C7 (as amended): for a label made of a prefix, a space and, in
    parentheses, a star followed by [.ext1.ext2], where the two tokens
    hold neither an opening parenthesis nor a newline,
    [_extension_from_filter] returns [.ext1.ext2]; the same holds for any
    such text after the star that starts with a dot. The function fails
    exactly on the labels that do not end, up to one final newline, in a
    parenthesis holding an optional star, a dot and characters of one
    line; where it succeeds, it returns the text from that dot to the
    closing parenthesis. *)
Theorem extension_from_filter_spec :
  (forall prefix ext1 ext2,
     Str.contains ext1 "(" = false -> Str.contains ext1 re.newline = false ->
     Str.contains ext2 "(" = false -> Str.contains ext2 re.newline = false ->
     _extension_from_filter
       (prefix +:+ " (*." +:+ ext1 +:+ "." +:+ ext2 +:+ ")")
     = Ok (Some ("." +:+ ext1 +:+ "." +:+ ext2))) /\
  (forall prefix body,
     Str.contains body "(" = false -> Str.contains body re.newline = false ->
     _extension_from_filter (prefix +:+ " (*." +:+ body +:+ ")")
     = Ok (Some ("." +:+ body))) /\
  (forall label,
     (exists e, _extension_from_filter label = Raise e) <->
     ~ extension_shape label) /\
  (forall label m,
     _extension_from_filter label = Ok m ->
     exists pre star body rest,
       label = pre +:+ String "(" (star +:+ String "." (body +:+ rest)) /\
       (star = "" \/ star = "*") /\
       Str.contains body re.newline = false /\ re.closes rest = true /\
       m = Some (String "." body)).
Proof.
  assert (Hgen : forall prefix body,
     Str.contains body "(" = false -> Str.contains body re.newline = false ->
     _extension_from_filter (prefix +:+ " (*." +:+ body +:+ ")")
     = Ok (Some ("." +:+ body))).
  { intros prefix body Hp Hn.
    pose proof (extension_from_filter_ok (prefix +:+ " ") body Hp Hn) as H.
    rewrite !app_assoc in H. exact H. }
  split; [|split; [exact Hgen|split; [|exact extension_from_filter_inv]]].
  - intros prefix ext1 ext2 Hp1 Hn1 Hp2 Hn2.
    pose proof (Hgen prefix (ext1 +:+ "." +:+ ext2)) as H.
    rewrite !app_assoc in H. apply H.
    + rewrite contains_app, Hp1. cbn. exact Hp2.
    + rewrite contains_app, Hn1. cbn. exact Hn2.
  - intros label. split.
    + intros [e He] [ext Hext]%extension_from_filter_shape. congruence.
    + intros Hshape. destruct (_extension_from_filter label) as [m|e] eqn:Hm.
      * exfalso. apply Hshape.
        apply extension_from_filter_inv in Hm
          as (pre & star & body & rest & ? & ? & ? & ? & _).
        by exists pre, star, body, rest.
      * by exists e.
Qed.

End RegexFacts.

(** ** The extension normaliser *)

Section NormalizeFacts.

Implicit Types (p r s t : string) (known : gset string) (fuel : nat).

Lemma last_token_whole p : os_path.splitext p = (p, "") -> last_token p = "".
Proof. unfold last_token. by intros ->. Qed.

Lemma last_token_cut p b t :
  os_path.splitext p = (b, String "." t) -> last_token p = t.
Proof. unfold last_token. by intros ->. Qed.

(** One iteration of the loop. *)
Lemma strip_known_step fuel known p :
  strip_known (S fuel) known p =
    if bool_decide (last_token p ∈ known)
    then strip_known fuel known (fst (os_path.splitext p))
    else Some p.
Proof.
  cbn [strip_known]. unfold last_token.
  destruct (os_path.splitext p) as [base ext]. cbn [fst snd].
  by destruct (bool_decide _).
Qed.

(** An extension that is taken off makes the name shorter, as long as the
    empty token is not known. *)
Lemma splitext_shorter known p :
  "" ∉ known -> last_token p ∈ known ->
  (String.length (fst (os_path.splitext p)) < String.length p)%nat.
Proof.
  intros Hempty Hin.
  destruct (splitext_inv p) as [Hw | (b & t & Hp & _ & _ & Hs)].
  - by rewrite (last_token_whole _ Hw) in Hin.
  - rewrite Hs. cbn [fst]. rewrite Hp, length_app. cbn. lia.
Qed.

Lemma strip_known_terminates known p fuel :
  "" ∉ known -> (String.length p < fuel)%nat ->
  is_Some (strip_known fuel known p).
Proof.
  intros Hempty. revert p. induction fuel as [|fuel IH]; intros p Hlen; [lia|].
  rewrite strip_known_step. case_bool_decide as Hin; [|done].
  apply IH. pose proof (splitext_shorter known p Hempty Hin). lia.
Qed.

(** The loop computes the relation [stripped]. *)
Lemma strip_known_stripped fuel known p r :
  strip_known fuel known p = Some r -> stripped known p r.
Proof.
  revert p. induction fuel as [|fuel IH]; intros p; [done|].
  rewrite strip_known_step. case_bool_decide as Hin.
  - intros H. apply stripped_step; [done | by apply IH].
  - intros [= <-]. by apply stripped_stop.
Qed.

Lemma stripped_strip_known known p r fuel :
  "" ∉ known -> stripped known p r -> (String.length p < fuel)%nat ->
  strip_known fuel known p = Some r.
Proof.
  intros Hempty Hs. revert fuel.
  induction Hs as [p Hout | p r Hin Hs IH]; intros fuel Hlen;
    (destruct fuel as [|fuel]; [lia|]); rewrite strip_known_step.
  - by rewrite bool_decide_eq_false_2.
  - rewrite bool_decide_eq_true_2 by done. apply IH.
    pose proof (splitext_shorter known p Hempty Hin). lia.
Qed.

Lemma stripped_last_token known p r :
  stripped known p r -> last_token r ∉ known.
Proof. induction 1; done. Qed.

Lemma dotted_app (ts us : list string) : dotted (ts ++ us) = dotted ts +:+ dotted us.
Proof.
  induction ts as [|t ts IH]; [done|]. cbn [dotted app].
  by rewrite IH, <- app_assoc.
Qed.

Lemma dotted_snoc (ts : list string) t :
  dotted (ts ++ [t]) = dotted ts +:+ String "." t.
Proof. rewrite dotted_app. cbn [dotted]. by rewrite app_nil_r. Qed.

(** What is taken off is a run of dotted known tokens. *)
Lemma stripped_decompose known p r :
  stripped known p r ->
  exists ts, p = r +:+ dotted ts /\
             Forall (fun t => t ∈ known /\ plain_token t = true) ts.
Proof.
  induction 1 as [p Hout | p r Hin Hs (ts & Hp & Hts)].
  - exists []. by rewrite app_nil_r.
  - destruct (splitext_inv p) as [Hw | (b & t & Hb & Hpl & _ & Hsp)].
    + rewrite Hw in Hp. by exists ts.
    + rewrite Hsp in Hp. cbn [fst] in Hp. exists (ts ++ [t]). split.
      * by rewrite dotted_snoc, <- app_assoc, <- Hp.
      * apply Forall_app. split; [done|]. constructor; [|done].
        by rewrite (last_token_cut _ _ _ Hsp) in Hin.
Qed.

Lemma stripped_has_stem known p r :
  stripped known p r -> has_stem p = true -> has_stem r = true.
Proof.
  induction 1 as [p Hout | p r Hin Hs IH]; [done|]. intros Hst.
  destruct (splitext_inv p) as [Hw | (b & t & Hb & Hpl & Hstb & Hsp)].
  - rewrite Hw in IH. by apply IH.
  - rewrite Hsp in IH. by apply IH.
Qed.

Lemma drop_app_le n s t :
  (n <= String.length s)%nat -> Str.drop n (s +:+ t) = Str.drop n s +:+ t.
Proof.
  revert s. induction n as [|n IH]; intros [|a s] H; cbn in *; try done; try lia.
  rewrite app_cons. cbn. apply IH. lia.
Qed.

Lemma basename_app p s :
  Str.contains s os_path.sep = false ->
  os_path.basename (p +:+ s) = os_path.basename p +:+ s.
Proof.
  intros Hs. unfold os_path.basename, Str.slice_from.
  rewrite (rfind_app_absent p s _ Hs). apply drop_app_le.
  pose proof (rfind_range p os_path.sep). unfold Str.len in *. lia.
Qed.

Lemma has_stem_app p s :
  Str.contains s os_path.sep = false -> has_stem p = true ->
  has_stem (p +:+ s) = true.
Proof.
  unfold has_stem. intros Hs Hp. rewrite (basename_app _ _ Hs), all_chr_app.
  apply negb_true_iff in Hp. by rewrite Hp.
Qed.

Lemma dotted_no_sep (ts : list string) :
  Forall (fun t => plain_token t = true) ts ->
  Str.contains (dotted ts) os_path.sep = false.
Proof.
  induction 1 as [|t ts Ht _ IH]; [done|]. cbn [dotted].
  rewrite contains_app, IH. cbn.
  unfold plain_token in Ht. apply andb_prop in Ht as [_ Ht].
  apply negb_true_iff in Ht. by rewrite Ht.
Qed.

(** A stripped name followed by dotted known tokens strips back to itself,
    provided it has a stem for [splitext] to cut after. *)
Lemma stripped_again known r (ts : list string) :
  has_stem r = true -> last_token r ∉ known ->
  Forall (fun t => t ∈ known /\ plain_token t = true) ts ->
  stripped known (r +:+ dotted ts) r.
Proof.
  intros Hst Hout. induction ts as [|t ts IH] using rev_ind; intros Hts.
  - rewrite app_nil_r. by apply stripped_stop.
  - apply Forall_app in Hts as [Hts Ht]. apply Forall_singleton in Ht as [Hin Hpl].
    rewrite dotted_snoc, <- app_assoc.
    assert (Hsp : os_path.splitext ((r +:+ dotted ts) +:+ String "." t)
                  = (r +:+ dotted ts, String "." t)).
    { rewrite (splitext_plain _ _ Hpl), has_stem_app; [done| |done].
      apply dotted_no_sep. eapply Forall_impl; [exact Hts|]. by intros ? [_ ?]. }
    apply stripped_step.
    + by rewrite (last_token_cut _ _ _ Hsp).
    + rewrite Hsp. cbn [fst]. by apply IH.
Qed.

(** *** The known tokens *)

Lemma collect_extensions_spec (filters : list string) known0 known :
  collect_extensions known0 filters = Ok known ->
  forall t, t ∈ known <->
    t ∈ known0 \/
    exists filt ext, filt ∈ filters /\
      _extension_from_filter filt = Ok (Some ext) /\ t ∈ Str.split ext ".".
Proof.
  revert known0. induction filters as [|filt filters IH]; intros known0.
  - intros [= <-] t. split; [by left|]. intros [?|(? & ? & ?%elem_of_nil & _)]; done.
  - cbn [collect_extensions].
    destruct (_extension_from_filter filt) as [[ext|]|] eqn:Hext; try done.
    intros H t. rewrite (IH _ H t), elem_of_union, elem_of_list_to_set. split.
    + intros [[?|?]|(f & x & Hf & Hx & Ht)]; [by left| |].
      * right. exists filt, ext. split; [left|done].
      * right. exists f, x. split; [by right|done].
    + intros [?|(f & x & Hf & Hx & Ht)]; [by left; left|].
      apply elem_of_cons in Hf as [->|Hf].
      * rewrite Hext in Hx. injection Hx as <-. by left; right.
      * right. by exists f, x.
Qed.

Lemma known_extensions_spec (filters : list string) known :
  known_extensions filters = Ok known ->
  forall t, t ∈ known <->
    t <> "" /\
    exists filt ext, filt ∈ filters /\
      _extension_from_filter filt = Ok (Some ext) /\ t ∈ Str.split ext ".".
Proof.
  unfold known_extensions.
  destruct (collect_extensions ∅ filters) as [k|] eqn:Hk; [|done].
  intros [= <-] t. pose proof (collect_extensions_spec _ _ _ Hk t) as Hspec.
  rewrite elem_of_empty in Hspec.
  case_decide as Hin.
  - rewrite elem_of_difference, elem_of_singleton, Hspec.
    split; intros [H1 H2].
    + split; [done|]. by destruct H1.
    + split; [by right | done].
  - split.
    + intros Ht. split; [by intros ->|]. by apply Hspec in Ht as [[]|].
    + intros [_ HP]. apply Hspec. by right.
Qed.

Lemma known_extensions_no_empty (filters : list string) known :
  known_extensions filters = Ok known -> "" ∉ known.
Proof.
  intros H Hin. by apply (known_extensions_spec _ _ H) in Hin as [? _].
Qed.

Lemma normalize_stripped fuel p e known r :
  normalize fuel p e known = Some r ->
  exists base, stripped known p base /\ r = base +:+ e.
Proof.
  unfold normalize. destruct (strip_known fuel known p) as [base|] eqn:Hb; [|done].
  intros [= <-]. exists base. split; [|done]. by eapply strip_known_stripped.
Qed.

Lemma stripped_normalize fuel p e known base :
  "" ∉ known -> stripped known p base -> (String.length p < fuel)%nat ->
  normalize fuel p e known = Some (base +:+ e).
Proof.
  intros Hempty Hs Hlen. unfold normalize.
  by rewrite (stripped_strip_known _ _ _ _ Hempty Hs Hlen).
Qed.

(** The result does not depend on the fuel, once there is enough of it. *)
Lemma normalize_any_fuel fuel0 fuel p e known r :
  "" ∉ known -> normalize fuel0 p e known = Some r ->
  (String.length p < fuel)%nat -> normalize fuel p e known = Some r.
Proof.
  intros Hempty (base & Hs & ->)%normalize_stripped Hlen.
  by apply stripped_normalize.
Qed.

Lemma tab_gz_no_empty : "" ∉ ({[ "tab"; "gz" ]} : gset string).
Proof. rewrite elem_of_union, !elem_of_singleton. by intros [|]. Qed.

(** C1: with [known] the tokens collected from the filter labels (the
    non-empty dot-separated pieces of their extensions),
    [_replace_extension] returns [base] followed by the target extension,
    where [base] is reached from the path by taking off its last
    extension for as long as the token of that extension is known, and
    the last extension of [base], if it has one, is not known. With the
    known tokens tab and gz, report.tab.gz and the target .csv give
    report.csv, and report.v2 gives report.v2.csv. *)
Theorem replace_extension_spec :
  (forall (filters : list string) known p e fuel,
     known_extensions filters = Ok known ->
     (String.length p < fuel)%nat ->
     (forall t, t ∈ known <->
        t <> "" /\
        exists filt ext, filt ∈ filters /\
          _extension_from_filter filt = Ok (Some ext) /\
          t ∈ Str.split ext ".") /\
     exists base,
       stripped known p base /\
       normalize fuel p e known = Some (base +:+ e) /\
       _replace_extension fuel filters p e = Some (Ok (base +:+ e))) /\
  (forall fuel, (String.length "report.tab.gz" < fuel)%nat ->
     normalize fuel "report.tab.gz" ".csv" {[ "tab"; "gz" ]} = Some "report.csv" /\
     _replace_extension fuel ["Tab (*.tab)"; "Compressed (*.tab.gz)"]
       "report.tab.gz" ".csv" = Some (Ok "report.csv")) /\
  (forall fuel, (String.length "report.v2" < fuel)%nat ->
     normalize fuel "report.v2" ".csv" {[ "tab"; "gz" ]} = Some "report.v2.csv" /\
     _replace_extension fuel ["Tab (*.tab)"; "Compressed (*.tab.gz)"]
       "report.v2" ".csv" = Some (Ok "report.v2.csv")).
Proof.
  assert (Hk : known_extensions ["Tab (*.tab)"; "Compressed (*.tab.gz)"]
               = Ok {[ "tab"; "gz" ]}) by (vm_compute; reflexivity).
  split; [|split].
  - intros filters known p e fuel Hknown Hlen.
    split; [by apply known_extensions_spec|].
    pose proof (known_extensions_no_empty _ _ Hknown) as Hempty.
    destruct (strip_known_terminates known p fuel Hempty Hlen) as [base Hb].
    exists base. split; [by eapply strip_known_stripped|].
    unfold _replace_extension, normalize. by rewrite Hknown, Hb.
  - intros fuel Hlen.
    assert (normalize fuel "report.tab.gz" ".csv" {[ "tab"; "gz" ]} = Some "report.csv") as Hn.
    { apply (normalize_any_fuel 14); [apply tab_gz_no_empty | by vm_compute | done]. }
    split; [done|]. unfold _replace_extension. by rewrite Hk, Hn.
  - intros fuel Hlen.
    assert (normalize fuel "report.v2" ".csv" {[ "tab"; "gz" ]} = Some "report.v2.csv") as Hn.
    { apply (normalize_any_fuel 10); [apply tab_gz_no_empty | by vm_compute | done]. }
    split; [done|]. unfold _replace_extension. by rewrite Hk, Hn.
Qed.

(** C2 (as amended): let the empty token not be known, let the target
    extension be a (possibly empty) run of dotted known tokens, each free
    of dots and separators, and let the last component of the path hold a
    character other than a dot (not needed for the empty extension). Then
    normalising the normalised path again gives it back; the same holds
    for [_replace_extension], whose known tokens come from the filters. *)
Theorem normalize_idempotent known p (ts : list string) fuel :
  "" ∉ known ->
  Forall (fun t => t ∈ known /\ plain_token t = true) ts ->
  ts = [] \/ has_stem p = true ->
  (String.length p < fuel)%nat ->
  exists r,
    normalize fuel p (dotted ts) known = Some r /\
    (forall fuel', (String.length r < fuel')%nat ->
       normalize fuel' r (dotted ts) known = Some r) /\
    (forall filters : list string,
       known_extensions filters = Ok known ->
       _replace_extension fuel filters p (dotted ts) = Some (Ok r) /\
       forall fuel', (String.length r < fuel')%nat ->
         _replace_extension fuel' filters r (dotted ts) = Some (Ok r)).
Proof.
  intros Hempty Hts Hstem Hlen.
  destruct (strip_known_terminates known p fuel Hempty Hlen) as [base Hb].
  pose proof (strip_known_stripped _ _ _ _ Hb) as Hs.
  assert (Hagain : stripped known (base +:+ dotted ts) base).
  { destruct Hstem as [-> | Hst].
    - cbn [dotted]. rewrite app_nil_r. apply stripped_stop.
      by eapply stripped_last_token.
    - apply stripped_again; [|by eapply stripped_last_token|done].
      by eapply stripped_has_stem. }
  assert (Hn1 : normalize fuel p (dotted ts) known = Some (base +:+ dotted ts)).
  { unfold normalize. by rewrite Hb. }
  assert (Hn2 : forall fuel', (String.length (base +:+ dotted ts) < fuel')%nat ->
            normalize fuel' (base +:+ dotted ts) (dotted ts) known
            = Some (base +:+ dotted ts)).
  { intros fuel' Hlen'. by apply stripped_normalize. }
  exists (base +:+ dotted ts). split; [done|]. split; [done|].
  intros filters Hk. unfold _replace_extension. rewrite Hk, Hn1.
  split; [done|]. intros fuel' Hlen'. by rewrite (Hn2 _ Hlen').
Qed.

(** C9: the loop of [_replace_extension] ends for every path. The set of
    known tokens never holds the empty token; without it every iteration
    that goes on shortens the name, so [String.length p + 1] iterations
    are enough, for the loop and for the whole function. A name whose
    last extension has a token that is not known (the empty token of a
    trailing dot included) leaves the loop at its first test. *)
Theorem replace_extension_terminates :
  (forall (filters : list string) known,
     known_extensions filters = Ok known -> "" ∉ known) /\
  (forall known p fuel,
     "" ∉ known -> (String.length p < fuel)%nat ->
     is_Some (strip_known fuel known p)) /\
  (forall (filters : list string) p e fuel,
     (String.length p < fuel)%nat ->
     is_Some (_replace_extension fuel filters p e)) /\
  (forall known p fuel,
     last_token p ∉ known -> strip_known (S fuel) known p = Some p) /\
  (forall known p fuel,
     "" ∉ known ->
     last_token (p +:+ ".") = "" /\
     strip_known (S fuel) known (p +:+ ".") = Some (p +:+ ".")).
Proof.
  split; [exact known_extensions_no_empty|].
  split; [exact strip_known_terminates|].
  split; [|split].
  - intros filters p e fuel Hlen. unfold _replace_extension, normalize.
    destruct (known_extensions filters) as [known|] eqn:Hk; [|done].
    pose proof (known_extensions_no_empty _ _ Hk) as Hempty.
    by destruct (strip_known_terminates known p fuel Hempty Hlen) as [r ->].
  - intros known p fuel Hout. rewrite strip_known_step.
    by rewrite bool_decide_eq_false_2.
  - intros known p fuel Hempty.
    assert (Ht : last_token (p +:+ ".") = "").
    { unfold last_token. rewrite (splitext_plain p "") by done.
      by destruct (has_stem p). }
    split; [done|]. rewrite strip_known_step, Ht.
    by rewrite bool_decide_eq_false_2.
Qed.

End NormalizeFacts.

(** ** The save state machine *)

Section WidgetFacts.

Context {Data : Type}.
Variable filters : list (string * Writer Data).
Variable dialog_exec : widget Data -> dialog_result.

Implicit Types self : widget Data.

Lemma eqb_empty_false (s : string) : s <> "" -> String.eqb s "" = false.
Proof. intros H. by apply String.eqb_neq. Qed.

Lemma eqb_empty_true (s : string) : s = "" -> String.eqb s "" = true.
Proof. intros ->. reflexivity. Qed.

(** A skipped attempt only clears [general_error]. *)
Lemma try_save_skipped self :
  data self = None \/ filename self = "" ->
  _try_save filters self
  = Returns (set_Error (msg_clear general_error (Error self)) self).
Proof.
  intros H. unfold _try_save. cbn.
  destruct H as [-> | ->]; cbn; [done|].
  by rewrite orb_true_r.
Qed.

(** An attempt that is not skipped calls the registered writer once. *)
Lemma try_save_attempt self d w :
  data self = Some d -> filename self <> "" ->
  filters_lookup filters (filter self) = Some w ->
  let self1 := set_Error (msg_clear general_error (Error self)) self in
  let self2 :=
    record_call (WriteCall (filter self) (filename self) (data self)) self1 in
  _try_save filters self =
    match w (filename self) (data self) with
    | None => Returns self2
    | Some (IOError err_value) =>
        Returns (set_Error (msg_raise general_error err_value (Error self2)) self2)
    | Some e => Raises e self2
    end.
Proof.
  intros Hd Hf Hw. unfold _try_save, do_save, writer. cbn.
  rewrite Hd, (eqb_empty_false _ Hf), Hw. cbn.
  destruct (w (filename self) (Some d)) as [[]|]; reflexivity.
Qed.

Lemma save_file_with_name self :
  filename self <> "" -> save_file filters dialog_exec self = _try_save filters self.
Proof. intros H. unfold save_file. by rewrite (eqb_empty_false _ H). Qed.

(** What [on_new_input] has done by the time it decides whether to save. *)
Lemma on_new_input_unfold self :
  on_new_input filters dialog_exec self =
    let fresh :=
      update_messages
        (set_Information ∅ (set_Warning ∅ (set_Error ∅ self))) in
    if auto_save self && negb (String.eqb (filename self) "")
    then save_file filters dialog_exec fresh
    else Returns fresh.
Proof. reflexivity. Qed.

Lemma update_messages_no_file_name self :
  is_Some (Error (update_messages self) !! no_file_name)
  <-> auto_save self = true /\ filename self = "".
Proof.
  unfold update_messages, msg_shown, msg_raise, msg_clear. cbn.
  destruct (String.eqb_spec (filename self) "") as [->|Hne]; cbn.
  - destruct (auto_save self); cbn.
    + rewrite lookup_insert_eq. split; [done | eauto].
    + rewrite lookup_delete_eq. split; [by intros [? ?] | by intros [? _]].
  - rewrite lookup_delete_eq. split; [by intros [? ?] | by intros [_ ?]].
Qed.

Lemma update_messages_empty_input self :
  is_Some (Information (update_messages self) !! empty_input)
  <-> filename self <> "" /\ data self = None.
Proof.
  unfold update_messages, msg_shown, msg_raise, msg_clear. cbn.
  destruct (String.eqb_spec (filename self) "") as [->|Hne]; cbn.
  - rewrite lookup_delete_eq. split; [by intros [? ?] | by intros [? _]].
  - destruct (data self); cbn.
    + rewrite lookup_delete_eq. split; [by intros [? ?] | by intros [_ ?]].
    + rewrite lookup_insert_eq. split; [done | eauto].
Qed.

(** C3: an I/O failure of the writer during an actual save attempt (data
    present, file name set, a writer registered for the filter) does not
    leave [_try_save]: the method returns, [general_error] is active with
    the failure's text, and [filename], [filter] and [auto_save] (and
    [last_dir] and [data]) are as before. The same holds for [save_file]
    and, when [auto_save] is on, for [on_new_input]. *)
Theorem try_save_io_failure self d w msg :
  data self = Some d -> filename self <> "" ->
  filters_lookup filters (filter self) = Some w ->
  w (filename self) (data self) = Some (IOError msg) ->
  (exists self',
      _try_save filters self = Returns self' /\
      save_file filters dialog_exec self = Returns self' /\
      Error self' !! general_error = Some msg /\
      filename self' = filename self /\ filter self' = filter self /\
      auto_save self' = auto_save self /\ last_dir self' = last_dir self /\
      data self' = data self /\
      calls self' =
        calls self ++ [WriteCall (filter self) (filename self) (data self)]) /\
  (auto_save self = true ->
   exists self',
      on_new_input filters dialog_exec self = Returns self' /\
      Error self' !! general_error = Some msg /\
      filename self' = filename self /\ filter self' = filter self /\
      auto_save self' = auto_save self /\ last_dir self' = last_dir self /\
      data self' = data self /\
      calls self' =
        calls self ++ [WriteCall (filter self) (filename self) (data self)]).
Proof.
  intros Hd Hf Hw Hio. split.
  - eexists. rewrite (save_file_with_name _ Hf).
    rewrite (try_save_attempt self d w Hd Hf Hw). cbv zeta. rewrite Hio.
    split; [reflexivity|]. split; [reflexivity|]. cbn.
    unfold msg_raise. rewrite lookup_insert_eq. by repeat split.
  - intros Ha. rewrite on_new_input_unfold. cbv zeta.
    rewrite Ha, (eqb_empty_false _ Hf). cbn [andb negb].
    set (fresh := update_messages _).
    assert (Hf' : filename fresh <> "") by exact Hf.
    rewrite (save_file_with_name _ Hf').
    rewrite (try_save_attempt fresh d w Hd Hf' Hw). cbv zeta.
    change (filename fresh) with (filename self).
    change (data fresh) with (data self). rewrite Hio.
    eexists. split; [reflexivity|]. cbn.
    unfold msg_raise. rewrite lookup_insert_eq. by repeat split.
Qed.

(** C4: [on_new_input] drops every error, warning and information that was
    active, recomputes [no_file_name] and [empty_input] from the current
    state, and then calls [save_file] exactly when [auto_save] is on and
    the file name is not empty, returning at once otherwise. With
    [auto_save] on and no file name, [no_file_name] ends up active,
    [empty_input] inactive, and neither a writer nor the dialog is called. *)
Theorem on_new_input_spec self :
  let fresh :=
    update_messages (set_Information ∅ (set_Warning ∅ (set_Error ∅ self))) in
  Error fresh =
    (if String.eqb (filename self) "" && auto_save self
     then {[ no_file_name := "File name is not set." ]} else ∅) /\
  Warning fresh = ∅ /\
  Information fresh =
    (if negb (String.eqb (filename self) "") && is_None (data self)
     then {[ empty_input := "Empty input; nothing was saved." ]} else ∅) /\
  calls fresh = calls self /\
  on_new_input filters dialog_exec self =
    (if auto_save self && negb (String.eqb (filename self) "")
     then save_file filters dialog_exec fresh
     else Returns fresh) /\
  (auto_save self = true -> filename self = "" ->
   exists self',
     on_new_input filters dialog_exec self = Returns self' /\
     is_Some (Error self' !! no_file_name) /\
     Information self' !! empty_input = None /\
     calls self' = calls self).
Proof.
  intros fresh. split; [|split; [|split; [|split; [|split]]]];
    try reflexivity.
  intros Ha Hf. rewrite on_new_input_unfold. cbv zeta.
    rewrite Ha, Hf. cbn [String.eqb negb andb]. eexists.
  split; [reflexivity|]. fold fresh. split; [|split].
  - apply update_messages_no_file_name. by cbn.
  - apply eq_None_not_Some. intros H.
    apply update_messages_empty_input in H. by destruct H as [H _].
  - reflexivity.
Qed.

(** C5 (as amended): after [update_messages], [no_file_name] is active
    exactly when [auto_save] is on and the file name is empty, and
    [empty_input] exactly when the file name is not empty and there is
    no data; the two are never active together, and [general_error] is
    left as it was. *)
Theorem update_messages_spec self :
  let self' := update_messages self in
  (is_Some (Error self' !! no_file_name)
   <-> auto_save self = true /\ filename self = "") /\
  (is_Some (Information self' !! empty_input)
   <-> filename self <> "" /\ data self = None) /\
  ~ (is_Some (Error self' !! no_file_name) /\
     is_Some (Information self' !! empty_input)) /\
  Error self' !! general_error = Error self !! general_error.
Proof.
  intros self'. split; [apply update_messages_no_file_name|].
  split; [apply update_messages_empty_input|]. split.
  - unfold self'. rewrite update_messages_no_file_name.
    rewrite update_messages_empty_input. intros [[_ ?] [? _]]. done.
  - unfold self', update_messages, msg_shown, msg_raise, msg_clear. cbn.
    case_match.
    + by rewrite lookup_insert_ne.
    + by rewrite lookup_delete_ne.
Qed.

(** C6: [save_file] is [save_file_as] when the file name is empty and
    [_try_save] otherwise. [_try_save] returns without calling a writer
    and without raising or showing an error when the data is absent or
    the file name is empty; otherwise it calls the writer registered for
    the current filter, once, with the current file name and data. With a
    file name set and data absent, [save_file] calls no writer and raises
    nothing. *)
Theorem save_file_spec self :
  (filename self = "" ->
   save_file filters dialog_exec self = save_file_as filters dialog_exec self) /\
  (filename self <> "" ->
   save_file filters dialog_exec self = _try_save filters self) /\
  (data self = None \/ filename self = "" ->
   exists self',
     _try_save filters self = Returns self' /\
     calls self' = calls self /\
     Error self' = msg_clear general_error (Error self) /\
     Warning self' = Warning self /\ Information self' = Information self) /\
  (forall d w,
     data self = Some d -> filename self <> "" ->
     filters_lookup filters (filter self) = Some w ->
     exists self',
       (_try_save filters self = Returns self' \/
        exists e, w (filename self) (Some d) = Some e /\
                  _try_save filters self = Raises e self') /\
       calls self' =
         calls self ++ [WriteCall (filter self) (filename self) (Some d)]) /\
  (filename self <> "" -> data self = None ->
   exists self',
     save_file filters dialog_exec self = Returns self' /\
     calls self' = calls self /\
     Error self' = msg_clear general_error (Error self)).
Proof.
  split; [|split; [|split; [|split]]].
  - intros H. unfold save_file. by rewrite H.
  - apply save_file_with_name.
  - intros H. rewrite (try_save_skipped _ H). eexists. by repeat split.
  - intros d w Hd Hf Hw. rewrite (try_save_attempt self d w Hd Hf Hw).
    cbv zeta. rewrite Hd.
    destruct (w (filename self) (Some d)) as [e|] eqn:He.
    + destruct e; eexists;
        (split; [first [left; reflexivity
                       | right; eexists; split; reflexivity]
                | reflexivity]).
    + eexists. split; [left; reflexivity | reflexivity].
  - intros Hf Hd. rewrite (save_file_with_name _ Hf).
    rewrite (try_save_skipped self (or_introl Hd)). eexists. by repeat split.
Qed.

(** C8: when the dialog is cancelled, so that [get_save_filename] returns
    an empty file name, [save_file_as] returns with [filename], [filter]
    and [last_dir] (and every other attribute and message) as they were;
    the only call made is the one to the dialog, no writer is called. *)
Theorem save_file_as_cancelled self :
  fst (fst (get_save_filename dialog_exec self)) = "" ->
  exists self',
    save_file_as filters dialog_exec self = Returns self' /\
    filename self' = filename self /\ filter self' = filter self /\
    last_dir self' = last_dir self /\
    data self' = data self /\ auto_save self' = auto_save self /\
    bt_save self' = bt_save self /\
    Error self' = Error self /\ Warning self' = Warning self /\
    Information self' = Information self /\
    calls self' = calls self ++ [DialogCall].
Proof.
  unfold save_file_as, get_save_filename.
  destruct (dialog_exec self) as [|f flt]; cbn.
  - intros _. eexists. by repeat split.
  - intros ->. cbn. eexists. by repeat split.
Qed.

(** C10: [_try_save] handles [IOError] only. When the writer raises another
    exception, that exception leaves [_try_save] and [save_file], and
    [general_error], cleared when the attempt began, stays cleared. The
    clearing also happens when the attempt is skipped for want of data:
    a [general_error] shown before is gone afterwards. *)
Theorem try_save_other_exception self :
  (forall d w e,
     data self = Some d -> filename self <> "" ->
     filters_lookup filters (filter self) = Some w ->
     w (filename self) (data self) = Some e -> is_IOError e = false ->
     exists self',
       _try_save filters self = Raises e self' /\
       save_file filters dialog_exec self = Raises e self' /\
       Error self' !! general_error = None /\
       Error self' = msg_clear general_error (Error self)) /\
  (data self = None ->
   exists self',
     _try_save filters self = Returns self' /\
     Error self' !! general_error = None /\
     calls self' = calls self).
Proof.
  split.
  - intros d w e Hd Hf Hw He Hio. rewrite (save_file_with_name _ Hf).
    rewrite (try_save_attempt self d w Hd Hf Hw). cbv zeta. rewrite He.
    destruct e; try discriminate Hio;
      (eexists; split; [reflexivity|]; split; [reflexivity|]; cbn;
       split; [apply lookup_delete_eq | reflexivity]).
  - intros Hd. rewrite (try_save_skipped self (or_introl Hd)).
    eexists. split; [reflexivity|]. cbn. split; [apply lookup_delete_eq | done].
Qed.

End WidgetFacts.

(** ** Instances and counterexamples *)

Lemma replace_extension_spec_witness :
  known_extensions Samples.labels = Ok {[ "tab"; "gz" ]} /\
  (String.length "a.gz.tab" < 9)%nat /\
  exists base,
    stripped {[ "tab"; "gz" ]} "a.gz.tab" base /\
    _replace_extension 9 Samples.labels "a.gz.tab" ".csv" = Some (Ok (base +:+ ".csv")).
Proof.
  assert (Hk : known_extensions Samples.labels = Ok {[ "tab"; "gz" ]})
    by (vm_compute; reflexivity).
  assert (Hlen : (String.length "a.gz.tab" < 9)%nat) by (cbn; lia).
  split; [exact Hk|]. split; [exact Hlen|].
  destruct replace_extension_spec as [H _].
  destruct (H Samples.labels _ "a.gz.tab" ".csv" 9%nat Hk Hlen)
    as [_ (base & Hs & _ & Hr)].
  exists base. by split.
Defined.

(** The claim of C2 fails when a token of the target extension is not
    known, when the path has no stem, and when a known token holds a
    separator. *)
Lemma normalize_not_idempotent :
  (normalize 20 "report" ".csv" {[ "tab"; "gz" ]} = Some "report.csv" /\
   normalize 20 "report.csv" ".csv" {[ "tab"; "gz" ]} = Some "report.csv.csv") /\
  (normalize 20 "" ".csv" {[ "csv" ]} = Some ".csv" /\
   normalize 20 ".csv" ".csv" {[ "csv" ]} = Some ".csv.csv") /\
  (normalize 20 "x" ".a/b" {[ "a/b" ]} = Some "x.a/b" /\
   normalize 20 "x.a/b" ".a/b" {[ "a/b" ]} = Some "x.a/b.a/b").
Proof. repeat split; vm_compute; reflexivity. Qed.

Lemma normalize_idempotent_witness :
  ("" ∉ ({[ "tab"; "gz" ]} : gset string)) /\
  Forall (fun t => t ∈ ({[ "tab"; "gz" ]} : gset string) /\ plain_token t = true)
    ["tab"; "gz"] /\
  has_stem "report.gz" = true /\
  (String.length "report.gz" < 10)%nat /\
  exists r,
    normalize 10 "report.gz" ".tab.gz" {[ "tab"; "gz" ]} = Some r /\
    normalize (S (String.length r)) r ".tab.gz" {[ "tab"; "gz" ]} = Some r.
Proof.
  assert (H1 : "" ∉ ({[ "tab"; "gz" ]} : gset string))
    by exact tab_gz_no_empty.
  assert (H2 : Forall (fun t => t ∈ ({[ "tab"; "gz" ]} : gset string)
                               /\ plain_token t = true) ["tab"; "gz"]).
  { repeat constructor; try reflexivity;
      rewrite elem_of_union, !elem_of_singleton; auto. }
  assert (H3 : has_stem "report.gz" = true) by reflexivity.
  assert (H4 : (String.length "report.gz" < 10)%nat) by (cbn; lia).
  split; [exact H1|]. split; [exact H2|]. split; [exact H3|]. split; [exact H4|].
  destruct (normalize_idempotent {[ "tab"; "gz" ]} "report.gz" ["tab"; "gz"] 10%nat
              H1 H2 (or_intror H3) H4) as (r & Hr & Hagain & _).
  exists r. split; [exact Hr|]. apply Hagain. lia.
Defined.

(** The claim of C7 fails on a token that holds an opening parenthesis
    followed by a dot, on a token that holds a newline, and on labels
    without the star or with a final newline, which are accepted. *)
Lemma extension_from_filter_counterexample :
  (_extension_from_filter ("A" +:+ " (*." +:+ "a(" +:+ "." +:+ "b" +:+ ")")
   = Ok (Some ".b") /\
   ".b" <> "." +:+ "a(" +:+ "." +:+ "b") /\
  (exists e,
     _extension_from_filter
       ("A" +:+ " (*." +:+ String "a" (String re.newline "") +:+ "." +:+ "b" +:+ ")")
     = Raise e) /\
  _extension_from_filter "Tab-separated values (.tab)" = Ok (Some ".tab") /\
  _extension_from_filter ("Tab-separated values (*.tab)" +:+ String re.newline "")
  = Ok (Some ".tab").
Proof.
  split; [split; [reflexivity | discriminate]|].
  split; [eexists; reflexivity|]. split; reflexivity.
Qed.

Lemma extension_from_filter_spec_witness :
  Str.contains "tab" "(" = false /\ Str.contains "tab" re.newline = false /\
  Str.contains "gz" "(" = false /\ Str.contains "gz" re.newline = false /\
  _extension_from_filter ("Compressed" +:+ " (*." +:+ "tab" +:+ "." +:+ "gz" +:+ ")")
  = Ok (Some ("." +:+ "tab" +:+ "." +:+ "gz")).
Proof.
  repeat (split; [reflexivity|]).
  destruct extension_from_filter_spec as [H _].
  exact (H "Compressed" "tab" "gz" eq_refl eq_refl eq_refl eq_refl).
Defined.

Lemma replace_extension_terminates_witness :
  ("" ∉ ({[ "tab"; "gz" ]} : gset string)) /\
  (String.length "archive.tab.gz" < 15)%nat /\
  is_Some (strip_known 15 {[ "tab"; "gz" ]} "archive.tab.gz") /\
  strip_known 1 {[ "tab"; "gz" ]} ("name" +:+ ".") = Some ("name" +:+ ".").
Proof.
  assert (H1 : "" ∉ ({[ "tab"; "gz" ]} : gset string))
    by exact tab_gz_no_empty.
  assert (H2 : (String.length "archive.tab.gz" < 15)%nat) by (cbn; lia).
  split; [exact H1|]. split; [exact H2|].
  destruct replace_extension_terminates as (_ & Hloop & _ & _ & Hdot).
  split; [exact (Hloop _ _ _ H1 H2)|].
  exact (proj2 (Hdot {[ "tab"; "gz" ]} "name" 0%nat H1)).
Defined.

Lemma try_save_io_failure_witness :
  let self := Samples.a_widget (Some 7%nat) Samples.tab_filter "out.tab" true ∅ in
  data self = Some 7%nat /\ filename self <> "" /\
  filters_lookup Samples.filters (filter self) = Some Samples.failing_writer /\
  Samples.failing_writer (filename self) (data self) = Some (IOError "disk full") /\
  auto_save self = true /\
  exists self',
    on_new_input Samples.filters Samples.cancel self = Returns self' /\
    Error self' !! general_error = Some "disk full" /\
    filename self' = "out.tab" /\ filter self' = Samples.tab_filter /\
    auto_save self' = true.
Proof.
  intros self.
  assert (H1 : data self = Some 7%nat) by reflexivity.
  assert (H2 : filename self <> "") by discriminate.
  assert (H3 : filters_lookup Samples.filters (filter self)
               = Some Samples.failing_writer) by reflexivity.
  assert (H4 : Samples.failing_writer (filename self) (data self)
               = Some (IOError "disk full")) by reflexivity.
  repeat (split; [assumption || reflexivity|]).
  destruct (try_save_io_failure Samples.filters Samples.cancel self 7%nat
              Samples.failing_writer "disk full" H1 H2 H3 H4) as [_ Hinput].
  destruct (Hinput eq_refl) as (self' & Hr & He & Hf & Hflt & Ha & _).
  exists self'. by repeat split.
Defined.

Lemma on_new_input_spec_witness :
  let self := Samples.a_widget None Samples.tab_filter "" true {[ general_error := "old" ]} in
  auto_save self = true /\ filename self = "" /\
  exists self',
    on_new_input Samples.filters Samples.cancel self = Returns self' /\
    is_Some (Error self' !! no_file_name) /\
    Information self' !! empty_input = None /\
    calls self' = [].
Proof.
  intros self. split; [reflexivity|]. split; [reflexivity|].
  destruct (on_new_input_spec Samples.filters Samples.cancel self)
    as (_ & _ & _ & _ & _ & H).
  exact (H eq_refl eq_refl).
Defined.

(** The claim of C5 fails in its last part: no state has both conditions
    active after [update_messages]. *)
Lemma update_messages_never_both :
  ~ exists (Data : Type) (self : widget Data),
      is_Some (Error (update_messages self) !! no_file_name) /\
      is_Some (Information (update_messages self) !! empty_input).
Proof.
  intros (Data & self & [_ Hempty]%update_messages_no_file_name
                       & [Hname _]%update_messages_empty_input).
  by apply Hname.
Qed.

Lemma save_file_spec_witness :
  let self := Samples.a_widget None Samples.tab_filter "out.tab" false ∅ in
  filename self <> "" /\ data self = None /\
  exists self',
    save_file Samples.filters Samples.cancel self = Returns self' /\
    calls self' = [] /\
    Error self' = msg_clear general_error ∅.
Proof.
  intros self.
  assert (H1 : filename self <> "") by discriminate.
  split; [exact H1|]. split; [reflexivity|].
  destruct (save_file_spec Samples.filters Samples.cancel self)
    as (_ & _ & _ & _ & H).
  exact (H H1 eq_refl).
Defined.

Lemma save_file_as_cancelled_witness :
  let self := Samples.a_widget (Some 7%nat) Samples.tab_filter "out.tab" true ∅ in
  fst (fst (get_save_filename Samples.cancel self)) = "" /\
  exists self',
    save_file_as Samples.filters Samples.cancel self = Returns self' /\
    filename self' = "out.tab" /\ filter self' = Samples.tab_filter /\
    last_dir self' = "/home" /\ calls self' = [DialogCall].
Proof.
  intros self.
  assert (H : fst (fst (get_save_filename Samples.cancel self)) = "") by reflexivity.
  split; [exact H|].
  destruct (save_file_as_cancelled Samples.filters Samples.cancel self H)
    as (self' & Hr & Hf & Hflt & Hd & _ & _ & _ & _ & _ & _ & Hc).
  exists self'. by repeat split.
Defined.

Lemma try_save_other_exception_witness :
  let self :=
    Samples.a_widget (Some 7%nat) Samples.csv_filter "out.csv" false
      {[ general_error := "old" ]} in
  data self = Some 7%nat /\ filename self <> "" /\
  filters_lookup Samples.filters (filter self) = Some Samples.broken_writer /\
  Samples.broken_writer (filename self) (data self) = Some (ValueError "bad value") /\
  is_IOError (ValueError "bad value") = false /\
  exists self',
    save_file Samples.filters Samples.cancel self
    = Raises (ValueError "bad value") self' /\
    Error self' !! general_error = None.
Proof.
  intros self.
  assert (H2 : filename self <> "") by discriminate.
  split; [reflexivity|]. split; [exact H2|]. repeat (split; [reflexivity|]).
  destruct (try_save_other_exception Samples.filters Samples.cancel self) as [H _].
  destruct (H 7%nat Samples.broken_writer (ValueError "bad value")
              eq_refl H2 eq_refl eq_refl eq_refl) as (self' & _ & Hs & He & _).
  exists self'. by split.
Defined.

(** * Further properties *)

(** ** [os.path.split] *)

Section SplitFacts.

Implicit Types (p s t : string) (c : ascii).

Lemma rstrip_mul s c : exists k, s = Str.rstrip s c +:+ Str.mul c k.
Proof.
  induction s as [|a s [k IH]]; [by exists 0%nat|]. cbn [Str.rstrip].
  destruct (Str.rstrip s c) as [|b r] eqn:Hr.
  - rewrite app_nil_l in IH. destruct (Str.chr_eqb a c) eqn:Hac.
    + apply chr_eqb_eq in Hac as ->. exists (S k). by rewrite IH.
    + exists k. by rewrite app_cons, app_nil_l, <- IH.
  - exists k. rewrite app_cons. by rewrite <- IH.
Qed.

Lemma basename_no_sep p : Str.contains (os_path.basename p) os_path.sep = false.
Proof.
  unfold os_path.basename.
  destruct (Z.leb_spec 0 (Str.rfind p os_path.sep)) as [Hr|Hr].
  - destruct (rfind_decompose _ _ Hr) as (a & t & -> & Ht & Hlen).
    rewrite Hlen. replace (Str.len a + 1) with (Str.len (a +:+ "/"))
      by (rewrite len_app; reflexivity).
    replace (a +:+ String "/" t) with ((a +:+ "/") +:+ t)
      by (rewrite app_assoc; reflexivity).
    by rewrite slice_from_len.
  - destruct (Str.contains p os_path.sep) eqn:Hc.
    + apply rfind_present in Hc. lia.
    + pose proof (rfind_range p os_path.sep).
      replace (Str.rfind p os_path.sep + 1) with 0 by lia. done.
Qed.

(** The two parts that [split] returns: the tail has no separator, and the
    path is the head, a run of separators, and the tail. *)
Lemma split_decompose p :
  Str.contains (snd (os_path.split p)) os_path.sep = false /\
  exists k, p = fst (os_path.split p) +:+ Str.mul os_path.sep k
                +:+ snd (os_path.split p).
Proof.
  unfold os_path.split. cbn [fst snd]. split; [apply basename_no_sep|].
  pose proof (slice_from_split p) as Hp. unfold os_path.basename in Hp.
  destruct (negb _ && negb _).
  - destruct (rstrip_mul (Str.slice_to p (Str.rfind p os_path.sep + 1)) os_path.sep)
      as [k Hk].
    exists k. by rewrite <- app_assoc, <- Hk.
  - exists 0%nat. by rewrite app_nil_l.
Qed.

Lemma take_app_le n s t :
  (n <= String.length s)%nat -> Str.take n (s +:+ t) = Str.take n s.
Proof.
  revert s. induction n as [|n IH]; intros s H; [done|].
  destruct s as [|a s]; cbn in H; [lia|].
  rewrite app_cons. cbn. rewrite IH; [done|lia].
Qed.

(** What follows the last separator does not change the head. *)
Lemma split_head_app p s :
  Str.contains s os_path.sep = false ->
  fst (os_path.split (p +:+ s)) = fst (os_path.split p).
Proof.
  intros Hs. unfold os_path.split. cbn [fst].
  rewrite (rfind_app_absent p s _ Hs). unfold Str.slice_to.
  rewrite take_app_le; [done|].
  pose proof (rfind_range p os_path.sep). unfold Str.len in *. lia.
Qed.

End SplitFacts.

(** ** More on the save state machine *)

Section WidgetMore.

Context {Data : Type}.
Variable filters : list (string * Writer Data).
Variable dialog_exec : widget Data -> dialog_result.

Implicit Types self : widget Data.

Ltac try_save_cases self :=
  unfold _try_save, do_save, writer; cbn;
  destruct (is_None (data self) || String.eqb (filename self) ""); cbn;
  [ | destruct (filters_lookup filters (filter self)) as [w|]; cbn;
      [ destruct (w (filename self) (data self)) as [[msg| | | |]|]; cbn | ] ].

Lemma try_save_keeps_attributes self :
  let self' := outcome_state (_try_save filters self) in
  filename self' = filename self /\ filter self' = filter self /\
  last_dir self' = last_dir self /\ auto_save self' = auto_save self /\
  data self' = data self /\ bt_save self' = bt_save self /\
  Warning self' = Warning self /\ Information self' = Information self.
Proof. try_save_cases self; repeat split. Qed.

Lemma try_save_keeps_other_errors self name :
  name <> general_error ->
  Error (outcome_state (_try_save filters self)) !! name = Error self !! name.
Proof.
  intros Hn.
  assert (Hdel : msg_clear general_error (Error self) !! name = Error self !! name).
  { unfold msg_clear. by rewrite lookup_delete_ne. }
  try_save_cases self; try exact Hdel.
  unfold msg_raise. by rewrite lookup_insert_ne.
Qed.

Lemma try_save_calls self :
  let self' := outcome_state (_try_save filters self) in
  calls self' = calls self \/
  calls self' = calls self ++ [WriteCall (filter self) (filename self) (data self)].
Proof. try_save_cases self; auto. Qed.

(** X1: however [_try_save] ends, it leaves [filename], [filter],
    [last_dir], [auto_save], [data], the button text, the warnings and the
    information messages as they were, touches no error other than
    [general_error], and makes at most one call: to the writer, with the
    current filter, file name and data. It never opens the dialog. *)
Theorem try_save_frame self :
  let self' := outcome_state (_try_save filters self) in
  filename self' = filename self /\ filter self' = filter self /\
  last_dir self' = last_dir self /\ auto_save self' = auto_save self /\
  data self' = data self /\ bt_save self' = bt_save self /\
  Warning self' = Warning self /\ Information self' = Information self /\
  (forall name, name <> general_error ->
     Error self' !! name = Error self !! name) /\
  (calls self' = calls self \/
   calls self' =
     calls self ++ [WriteCall (filter self) (filename self) (data self)]).
Proof.
  intros self'.
  destruct (try_save_keeps_attributes self)
    as (H1 & H2 & H3 & H4 & H5 & H6 & H7 & H8).
  do 8 (split; [assumption|]). split.
  - intros name Hn. by apply try_save_keeps_other_errors.
  - apply try_save_calls.
Qed.

(** X2: [on_new_input] never opens the file dialog and never changes
    [filename], [filter], [last_dir], [auto_save], [data] or the button
    text. However it ends, no warning is left, the only errors that can be
    active are [no_file_name] and [general_error], the only information
    [empty_input], and at most one writer call has been made. *)
Theorem on_new_input_never_asks self :
  let self' := outcome_state (on_new_input filters dialog_exec self) in
  filename self' = filename self /\ filter self' = filter self /\
  last_dir self' = last_dir self /\ auto_save self' = auto_save self /\
  data self' = data self /\ bt_save self' = bt_save self /\
  Warning self' = ∅ /\
  (forall name, name <> no_file_name -> name <> general_error ->
     Error self' !! name = None) /\
  (forall name, name <> empty_input -> Information self' !! name = None) /\
  (calls self' = calls self \/
   calls self' =
     calls self ++ [WriteCall (filter self) (filename self) (data self)]).
Proof.
  rewrite on_new_input_unfold. cbv zeta.
  set (fresh := update_messages _).
  assert (HE : forall name, name <> no_file_name -> Error fresh !! name = None).
  { intros name Hn. unfold fresh, update_messages, msg_shown, msg_raise, msg_clear.
    cbn. case_match.
    - rewrite lookup_insert_ne by done. apply lookup_empty.
    - rewrite lookup_delete_ne by done. apply lookup_empty. }
  assert (HI : forall name, name <> empty_input -> Information fresh !! name = None).
  { intros name Hn. unfold fresh, update_messages, msg_shown, msg_raise, msg_clear.
    cbn. case_match.
    - rewrite lookup_insert_ne by done. apply lookup_empty.
    - rewrite lookup_delete_ne by done. apply lookup_empty. }
  destruct (auto_save self && negb (String.eqb (filename self) "")) eqn:Hc.
  - apply andb_prop in Hc as [_ Hf]. apply negb_true_iff, String.eqb_neq in Hf.
    assert (Hf' : filename fresh <> "") by exact Hf.
    rewrite (save_file_with_name filters dialog_exec _ Hf').
    destruct (try_save_keeps_attributes fresh)
      as (H1 & H2 & H3 & H4 & H5 & H6 & H7 & H8).
    pose proof (fun name => try_save_keeps_other_errors fresh name) as H9.
    pose proof (try_save_calls fresh) as H10. cbv zeta in H10.
    repeat split; try (etrans; [eassumption|reflexivity]).
    + intros name Hn Hg. rewrite (H9 name Hg). by apply HE.
    + intros name Hn. rewrite H8. by apply HI.
    + exact H10.
  - cbn [outcome_state]. repeat split; auto.
Qed.

(** X3: when no writer is registered for the current filter, an actual save
    attempt raises [KeyError] with the filter as its key; [_try_save] does
    not handle it, so it leaves [save_file] and, with [auto_save] on,
    [on_new_input]. No writer is called and [general_error] is not shown. *)
Theorem try_save_unregistered_filter self d :
  data self = Some d -> filename self <> "" ->
  filters_lookup filters (filter self) = None ->
  exists self',
    _try_save filters self = Raises (KeyError (filter self)) self' /\
    save_file filters dialog_exec self = Raises (KeyError (filter self)) self' /\
    calls self' = calls self /\ Error self' !! general_error = None /\
    (auto_save self = true ->
     exists self'',
       on_new_input filters dialog_exec self
       = Raises (KeyError (filter self)) self'' /\
       calls self'' = calls self /\ Error self'' = ∅).
Proof.
  intros Hd Hf Hw.
  assert (Hraise : forall s : widget Data,
            data s = Some d -> filename s <> "" -> filter s = filter self ->
            _try_save filters s
            = Raises (KeyError (filter self))
                (set_Error (msg_clear general_error (Error s)) s)).
  { intros s Hsd Hsf Hsflt. unfold _try_save, do_save, writer. cbn.
    rewrite Hsd, (eqb_empty_false _ Hsf), Hsflt, Hw. reflexivity. }
  eexists. rewrite (save_file_with_name _ _ _ Hf), (Hraise self Hd Hf eq_refl).
  split; [reflexivity|]. split; [reflexivity|]. split; [reflexivity|].
  split; [apply lookup_delete_eq|].
  intros Ha. rewrite on_new_input_unfold. cbv zeta.
  rewrite Ha, (eqb_empty_false _ Hf). cbn [andb negb].
  set (fresh := update_messages _).
  assert (Hf' : filename fresh <> "") by exact Hf.
  rewrite (save_file_with_name _ _ _ Hf'), (Hraise fresh Hd Hf' eq_refl).
  eexists. split; [reflexivity|]. split; [reflexivity|].
  unfold fresh, update_messages, msg_shown, msg_clear. cbn.
  rewrite (eqb_empty_false _ Hf). cbn. by rewrite !delete_empty.
Qed.

(** X4: when the writer returns normally, [_try_save] returns with
    [general_error] not shown, whatever was shown before, the other errors
    as they were, and exactly one writer call added. *)
Theorem try_save_success self d w :
  data self = Some d -> filename self <> "" ->
  filters_lookup filters (filter self) = Some w ->
  w (filename self) (data self) = None ->
  exists self',
    _try_save filters self = Returns self' /\
    Error self' !! general_error = None /\
    Error self' = delete general_error (Error self) /\
    calls self' =
      calls self ++ [WriteCall (filter self) (filename self) (data self)].
Proof.
  intros Hd Hf Hw Hok. rewrite (try_save_attempt filters self d w Hd Hf Hw).
  cbv zeta. rewrite Hok. eexists. split; [reflexivity|]. cbn.
  split; [apply lookup_delete_eq|]. by split.
Qed.

(** X5: when the dialog is accepted with a non-empty file name, however the
    save that follows ends, [save_file_as] has made that name and the
    selected filter current, [last_dir] is the head of [os.path.split] of
    the name and the button shows its tail: the name is [last_dir], a run
    of separators and the tail, which has no separator. [no_file_name] is
    not shown, and the dialog call is followed by at most one writer
    call, for the new name and filter. *)
Theorem save_file_as_accepted self f flt :
  dialog_exec self = Accepted f flt -> f <> "" ->
  let self' := outcome_state (save_file_as filters dialog_exec self) in
  filename self' = f /\ filter self' = flt /\
  data self' = data self /\ auto_save self' = auto_save self /\
  bt_save self' = "Save as " +:+ snd (os_path.split f) /\
  Str.contains (snd (os_path.split f)) os_path.sep = false /\
  (exists k, f = last_dir self' +:+ Str.mul os_path.sep k
                 +:+ snd (os_path.split f)) /\
  Error self' !! no_file_name = None /\
  (is_Some (Information self' !! empty_input) <-> data self = None) /\
  (calls self' = calls self ++ [DialogCall] \/
   calls self' = calls self ++ [DialogCall; WriteCall flt f (data self)]).
Proof.
  intros Hdlg Hf. unfold save_file_as, get_save_filename. rewrite Hdlg.
  rewrite (eqb_empty_false _ Hf).
  set (s := update_messages _).
  destruct (try_save_keeps_attributes s)
    as (H1 & H2 & H3 & H4 & H5 & H6 & H7 & H8).
  pose proof (fun name => try_save_keeps_other_errors s name) as H9.
  pose proof (try_save_calls s) as H10. cbv zeta in *.
  split; [by rewrite H1|]. split; [by rewrite H2|].
  split; [by rewrite H5|]. split; [by rewrite H4|].
  split; [by rewrite H6|].
  split; [apply split_decompose|].
  split; [rewrite H3; apply split_decompose|].
  split.
  { rewrite H9 by done. apply eq_None_not_Some.
    unfold s. rewrite update_messages_no_file_name. cbn. by intros [_ ?]. }
  split.
  { rewrite H8. unfold s. rewrite update_messages_empty_input. cbn.
    split; [by intros [_ ?] | by intros ?]. }
  destruct H10 as [-> | ->]; [by left|]. right. cbn.
  by rewrite <- (assoc_L (++)).
Qed.

(** X6: with [auto_save] on and a file name set, [on_new_input] without data
    calls no writer and ends with [empty_input] as the only active
    condition; with data and a writer that returns, it writes once, with
    the current filter, file name and data, and ends with no condition
    active at all. *)
Theorem on_new_input_auto_save self :
  auto_save self = true -> filename self <> "" ->
  (data self = None ->
   exists self',
     on_new_input filters dialog_exec self = Returns self' /\
     calls self' = calls self /\ Error self' = ∅ /\ Warning self' = ∅ /\
     Information self' = {[ empty_input := "Empty input; nothing was saved." ]}) /\
  (forall d w,
     data self = Some d ->
     filters_lookup filters (filter self) = Some w ->
     w (filename self) (data self) = None ->
     exists self',
       on_new_input filters dialog_exec self = Returns self' /\
       calls self' =
         calls self ++ [WriteCall (filter self) (filename self) (data self)] /\
       Error self' = ∅ /\ Warning self' = ∅ /\ Information self' = ∅).
Proof.
  intros Ha Hf. split.
  - intros Hd. rewrite on_new_input_unfold. cbv zeta.
    rewrite Ha, (eqb_empty_false _ Hf). cbn [andb negb].
    set (fresh := update_messages _).
    assert (Hf' : filename fresh <> "") by exact Hf.
    rewrite (save_file_with_name _ _ _ Hf').
    rewrite (try_save_skipped filters fresh (or_introl Hd)).
    eexists. split; [reflexivity|]. split; [reflexivity|].
    unfold fresh, update_messages, msg_shown, msg_raise, msg_clear. cbn.
    rewrite Hd, (eqb_empty_false _ Hf). cbn.
    by rewrite !delete_empty, insert_empty.
  - intros d w Hd Hw Hok. rewrite on_new_input_unfold. cbv zeta.
    rewrite Ha, (eqb_empty_false _ Hf). cbn [andb negb].
    set (fresh := update_messages _).
    assert (Hf' : filename fresh <> "") by exact Hf.
    rewrite (save_file_with_name _ _ _ Hf').
    rewrite (try_save_attempt filters fresh d w Hd Hf' Hw). cbv zeta.
    change (filename fresh) with (filename self).
    change (data fresh) with (data self). rewrite Hok.
    eexists. split; [reflexivity|]. split; [reflexivity|].
    unfold fresh, update_messages, msg_shown, msg_raise, msg_clear. cbn.
    rewrite Hd, (eqb_empty_false _ Hf). cbn.
    by rewrite !delete_empty.
Qed.


(** X8: [initial_start_dir] returns the file name, the last directory or the
    home directory, the file name only when it is not empty and its
    directory exists; given a non-empty home directory the result is never
    empty. *)
Theorem initial_start_dir_spec (path_exists : string -> bool) (home : string) self :
  home <> "" ->
  initial_start_dir path_exists home self <> "" /\
  (initial_start_dir path_exists home self = filename self /\
     path_exists (fst (os_path.split (filename self))) = true \/
   initial_start_dir path_exists home self = last_dir self \/
   initial_start_dir path_exists home self = home).
Proof.
  intros Hhome. unfold initial_start_dir.
  destruct (String.eqb_spec (filename self) "") as [Hf|Hf]; cbn [negb andb].
  - destruct (String.eqb_spec (last_dir self) "") as [Hl|Hl]; cbn [negb]; auto.
  - destruct (path_exists _) eqn:He; [auto|].
    destruct (String.eqb_spec (last_dir self) "") as [Hl|Hl]; cbn [negb]; auto.
Qed.

End WidgetMore.

(** ** More on the extension normaliser *)

Section NormalizeMore.

Implicit Types (p r s t : string) (known : gset string) (fuel : nat).

Lemma plain_tokens_of known (ts : list string) :
  Forall (fun t => t ∈ known /\ plain_token t = true) ts ->
  Forall (fun t => plain_token t = true) ts.
Proof. intros H. eapply Forall_impl; [exact H|]. by intros ? [_ ?]. Qed.

Lemma has_stem_nonempty p : has_stem p = true -> p <> "".
Proof. by intros H ->. Qed.

Lemma length_dotted_stripped known p base :
  stripped known p base -> (String.length base <= String.length p)%nat.
Proof.
  intros (ts & -> & _)%stripped_decompose. rewrite length_app. lia.
Qed.

(** The pieces that [split] returns hold no separator and put together
    with the separator give the string back. *)
Lemma split_dotted s :
  exists w ws, Str.split s "." = w :: ws /\ s = w +:+ dotted ws /\
               Forall (fun t => Str.contains t "." = false) (w :: ws).
Proof.
  induction s as [|a s (w & ws & Hsplit & Hs & Hall)].
  - exists "", []. by repeat constructor.
  - cbn [Str.split]. destruct (Str.chr_eqb a ".") eqn:Ha.
    + apply chr_eqb_eq in Ha as ->. exists "", (w :: ws).
      rewrite Hsplit. split; [done|]. split.
      * cbn [dotted]. by rewrite app_nil_l, app_cons, <- Hs.
      * by constructor.
    + rewrite Hsplit. exists (String a w), ws. split; [done|]. split.
      * by rewrite app_cons, <- Hs.
      * apply Forall_cons in Hall as [Hw Hws]. constructor; [|done].
        cbn. by rewrite Ha, Hw.
Qed.

Lemma dotted_pieces_no c (ts : list string) :
  Str.contains (dotted ts) c = false ->
  Forall (fun t => Str.contains t c = false) ts.
Proof.
  induction ts as [|t ts IH]; [constructor|]. cbn [dotted].
  rewrite contains_app. intros [Ht Hts]%orb_false_elim.
  constructor; [|by apply IH]. cbn in Ht. by apply orb_false_elim in Ht as [_ ?].
Qed.

(** X9: [_replace_extension] never changes the directory: when the target
    extension holds no separator, [os.path.split] gives the same head for
    the result as for the file name it was given. *)
Theorem replace_extension_keeps_directory
    (filters : list string) known p (e : string) fuel :
  known_extensions filters = Ok known ->
  (String.length p < fuel)%nat ->
  Str.contains e os_path.sep = false ->
  exists r,
    _replace_extension fuel filters p e = Some (Ok r) /\
    fst (os_path.split r) = fst (os_path.split p).
Proof.
  intros Hk Hlen He.
  pose proof (known_extensions_no_empty _ _ Hk) as Hempty.
  destruct (strip_known_terminates known p fuel Hempty Hlen) as [base Hb].
  exists (base +:+ e). split.
  - unfold _replace_extension, normalize. by rewrite Hk, Hb.
  - apply strip_known_stripped, stripped_decompose in Hb as (ts & -> & Hts).
    rewrite !split_head_app; [done| |done].
    by eapply dotted_no_sep, plain_tokens_of.
Qed.

(** X10: the result of [_replace_extension] is a prefix of the file name
    followed by the target extension; what was cut off is a run of dotted
    known tokens, so the result is at most as long as the name and the
    extension together. A name whose last component holds a character
    other than a dot keeps such a character: the name is never cut down to
    nothing. *)
Theorem replace_extension_prefix
    (filters : list string) known p (e : string) fuel :
  known_extensions filters = Ok known ->
  (String.length p < fuel)%nat ->
  exists base (ts : list string),
    _replace_extension fuel filters p e = Some (Ok (base +:+ e)) /\
    p = base +:+ dotted ts /\
    Forall (fun t => t ∈ known) ts /\
    (String.length (base +:+ e) <= String.length p + String.length e)%nat /\
    (has_stem p = true -> has_stem base = true /\ base <> "").
Proof.
  intros Hk Hlen.
  pose proof (known_extensions_no_empty _ _ Hk) as Hempty.
  destruct (strip_known_terminates known p fuel Hempty Hlen) as [base Hb].
  pose proof (strip_known_stripped _ _ _ _ Hb) as Hs.
  destruct (stripped_decompose _ _ _ Hs) as (ts & Hp & Hts).
  exists base, ts. split.
  { unfold _replace_extension, normalize. by rewrite Hk, Hb. }
  split; [done|]. split.
  { eapply Forall_impl; [exact Hts|]. by intros ? [? _]. }
  split.
  { rewrite length_app. pose proof (length_dotted_stripped _ _ _ Hs). lia. }
  intros Hst. pose proof (stripped_has_stem _ _ _ Hs Hst) as Hb'.
  split; [done | by apply has_stem_nonempty].
Qed.

(** X11: changing the extension twice is changing it once. After
    normalising to an extension made of dotted known tokens (free of dots
    and separators), normalising the result to any other extension gives
    what normalising the original path to that extension gives. *)
Theorem normalize_switch known p (ts : list string) fuel :
  "" ∉ known ->
  Forall (fun t => t ∈ known /\ plain_token t = true) ts ->
  ts = [] \/ has_stem p = true ->
  (String.length p < fuel)%nat ->
  exists r,
    normalize fuel p (dotted ts) known = Some r /\
    forall (e : string) fuel', (String.length r < fuel')%nat ->
      is_Some (normalize fuel p e known) /\
      normalize fuel' r e known = normalize fuel p e known.
Proof.
  intros Hempty Hts Hstem Hlen.
  destruct (strip_known_terminates known p fuel Hempty Hlen) as [base Hb].
  pose proof (strip_known_stripped _ _ _ _ Hb) as Hs.
  assert (Hagain : stripped known (base +:+ dotted ts) base).
  { destruct Hstem as [-> | Hst].
    - cbn [dotted]. rewrite app_nil_r. apply stripped_stop.
      by eapply stripped_last_token.
    - apply stripped_again; [|by eapply stripped_last_token|done].
      by eapply stripped_has_stem. }
  exists (base +:+ dotted ts). split.
  { unfold normalize. by rewrite Hb. }
  intros e fuel' Hlen'.
  rewrite (stripped_normalize fuel p e known base Hempty Hs Hlen).
  split; [by eexists|]. by apply stripped_normalize.
Qed.

Lemma collect_extensions_raise (filters : list string) known0 e :
  collect_extensions known0 filters = Raise e ->
  exists filt, filt ∈ filters /\ _extension_from_filter filt = Raise e.
Proof.
  revert known0. induction filters as [|filt filters IH]; intros known0; [done|].
  cbn [collect_extensions].
  destruct (_extension_from_filter filt) as [[ext|]|e'] eqn:Hext.
  - intros (f & Hf & He)%IH. exists f. split; [by right|done].
  - by apply extension_from_filter_inv in Hext as (? & ? & ? & ? & _ & _ & _ & _ & ?).
  - intros [= <-]. exists filt. split; [left|done].
Qed.

Lemma collect_extensions_ok (filters : list string) known0 known filt :
  collect_extensions known0 filters = Ok known -> filt ∈ filters ->
  exists ext, _extension_from_filter filt = Ok (Some ext).
Proof.
  revert known0. induction filters as [|f filters IH]; intros known0.
  - by intros _ ?%elem_of_nil.
  - cbn [collect_extensions].
    destruct (_extension_from_filter f) as [[ext|]|e'] eqn:Hext; try done.
    intros H [-> | Hin]%elem_of_cons; [by exists ext|]. by eapply IH.
Qed.

(** X12: [_replace_extension] raises exactly when some filter label is not
    of the shape that the pattern accepts; the exception is the
    [AttributeError] of the missing match, whatever the file name and the
    extension are. *)
Theorem replace_extension_raises_iff (filters : list string) p ext fuel :
  ((exists e, _replace_extension fuel filters p ext = Some (Raise e)) <->
   exists filt, filt ∈ filters /\ ~ extension_shape filt) /\
  (forall e, _replace_extension fuel filters p ext = Some (Raise e) ->
     e = AttributeError "'NoneType' object has no attribute 'group'").
Proof.
  assert (Hraise : forall e, _replace_extension fuel filters p ext = Some (Raise e) ->
            exists filt, filt ∈ filters /\ _extension_from_filter filt = Raise e).
  { intros e. unfold _replace_extension, known_extensions.
    destruct (collect_extensions ∅ filters) as [k|e'] eqn:Hc.
    - by destruct (normalize fuel p ext _).
    - intros [= <-]. by eapply collect_extensions_raise. }
  split; [split|].
  - intros (e & (filt & Hin & Hf)%Hraise). exists filt. split; [done|].
    intros (x & Hx)%extension_from_filter_shape. congruence.
  - intros (filt & Hin & Hshape). unfold _replace_extension, known_extensions.
    destruct (collect_extensions ∅ filters) as [k|e'] eqn:Hc; [|by eexists].
    destruct (collect_extensions_ok _ _ _ _ Hc Hin) as [x Hx].
    exfalso. apply Hshape.
    apply extension_from_filter_inv in Hx as (a & b & c & d & ? & ? & ? & ? & _).
    by exists a, b, c, d.
  - intros e (filt & _ & Hf)%Hraise. unfold _extension_from_filter in Hf.
    destruct (re.search extension_pattern filt); [done|]. by injection Hf as <-.
Qed.

(** X13: for the extension of a registered filter that holds no separator
    and no empty piece after its leading dot, and a file name whose last
    component holds a character other than a dot, [_replace_extension]
    gives a name that it maps to itself: the name that the dialog shows
    for a filter is stable. *)
Theorem replace_extension_registered_stable
    (filters : list string) known filt ext p fuel :
  known_extensions filters = Ok known ->
  filt ∈ filters ->
  _extension_from_filter filt = Ok (Some ext) ->
  Str.contains ext os_path.sep = false ->
  Forall (fun t => t <> "") (tail (Str.split ext ".")) ->
  has_stem p = true ->
  (String.length p < fuel)%nat ->
  exists r,
    _replace_extension fuel filters p ext = Some (Ok r) /\
    forall fuel', (String.length r < fuel')%nat ->
      _replace_extension fuel' filters r ext = Some (Ok r).
Proof.
  intros Hk Hin Hext Hsep Hpieces Hst Hlen.
  pose proof (known_extensions_no_empty _ _ Hk) as Hempty.
  assert (exists ts : list string, ext = dotted ts /\
            Forall (fun t => t ∈ known /\ plain_token t = true) ts)
    as (ts & -> & Hts).
  { destruct (split_dotted ext) as (w & ws & Hsplit & Hs & Hall).
    pose proof Hext as Hinv.
    apply extension_from_filter_inv in Hinv
      as (_ & _ & body & _ & _ & _ & _ & _ & [= Hbody]).
    assert (w = "") as ->.
    { rewrite Hbody in Hsplit. cbn in Hsplit. by injection Hsplit as <- _. }
    rewrite app_nil_l in Hs. exists ws. split; [done|].
    rewrite Hsplit in Hpieces. cbn [tail] in Hpieces.
    apply Forall_cons in Hall as [_ Hall].
    rewrite Hs in Hsep. apply dotted_pieces_no in Hsep.
    apply Forall_forall. intros t Ht. split.
    - apply (known_extensions_spec _ _ Hk). split.
      + by apply (proj1 (Forall_forall _ _) Hpieces).
      + exists filt, ext. split; [done|]. split; [done|].
        rewrite Hsplit. by right.
    - unfold plain_token.
      rewrite (proj1 (Forall_forall _ _) Hall t Ht).
      by rewrite (proj1 (Forall_forall _ _) Hsep t Ht). }
  destruct (strip_known_terminates known p fuel Hempty Hlen) as [base Hb].
  pose proof (strip_known_stripped _ _ _ _ Hb) as Hs.
  assert (Hagain : stripped known (base +:+ dotted ts) base).
  { apply stripped_again; [|by eapply stripped_last_token|done].
    by eapply stripped_has_stem. }
  exists (base +:+ dotted ts). split.
  - unfold _replace_extension, normalize. by rewrite Hk, Hb.
  - intros fuel' Hlen'. unfold _replace_extension. rewrite Hk.
    by rewrite (stripped_normalize fuel' _ _ known base Hempty Hagain Hlen').
Qed.

(** X14: the star is optional. For a body that holds neither an opening
    parenthesis nor a newline, the label with the parenthesis opened by a
    dot gives the same extension as the label with the star before the
    dot. *)
Theorem extension_from_filter_without_star prefix body :
  Str.contains body "(" = false -> Str.contains body re.newline = false ->
  _extension_from_filter (prefix +:+ " (." +:+ body +:+ ")")
  = Ok (Some ("." +:+ body)) /\
  _extension_from_filter (prefix +:+ " (." +:+ body +:+ ")")
  = _extension_from_filter (prefix +:+ " (*." +:+ body +:+ ")").
Proof.
  intros Hparen Hnl.
  assert (H1 : _extension_from_filter (prefix +:+ " (." +:+ body +:+ ")")
               = Ok (Some ("." +:+ body))).
  { unfold _extension_from_filter.
    replace (prefix +:+ " (." +:+ body +:+ ")")
      with ((prefix +:+ " ") +:+ String "(" ("" +:+ String "." (body +:+ ")")))
      by (by rewrite !app_assoc).
    erewrite search_ok; [reflexivity|done|].
    pose proof (outer_cons "(" ("" +:+ String "." (body +:+ ")"))) as Ho.
    cbn [Str.chr_eqb Ascii.eqb Bool.eqb negb andb] in Ho. rewrite Ho.
    rewrite outer_no_paren.
    - apply (paren_ok "" None "" body ")"); [by left|done|done].
    - rewrite app_nil_l. cbn [Str.contains]. rewrite contains_app. cbn.
      by rewrite Hparen. }
  split; [exact H1|]. rewrite H1. symmetry.
  pose proof (extension_from_filter_ok (prefix +:+ " ") body Hparen Hnl) as H.
  rewrite !app_assoc in H. exact H.
Qed.

(** X15: every known token is non-empty and holds no dot, and every
    non-empty piece of the extension of a registered filter is known. *)
Theorem known_extensions_tokens (filters : list string) known :
  known_extensions filters = Ok known ->
  (forall t, t ∈ known -> t <> "" /\ Str.contains t "." = false) /\
  (forall filt ext t,
     filt ∈ filters -> _extension_from_filter filt = Ok (Some ext) ->
     t ∈ Str.split ext "." -> t <> "" -> t ∈ known).
Proof.
  intros Hk. split.
  - intros t (Hne & filt & ext & _ & _ & Ht)%(known_extensions_spec _ _ Hk).
    split; [done|].
    destruct (split_dotted ext) as (w & ws & Hsplit & _ & Hall).
    rewrite Hsplit in Ht. by apply (proj1 (Forall_forall _ _) Hall).
  - intros filt ext t Hin Hext Ht Hne.
    apply (known_extensions_spec _ _ Hk). split; [done|]. by exists filt, ext.
Qed.

End NormalizeMore.

(** ** The file dialogs *)

Section DialogFacts.

Implicit Types (p r s t : string) (known : gset string) (fuel : nat).

(** The extension of a registered filter, when it holds no separator and
    no empty piece after its leading dot, is a run of dotted known tokens. *)
Lemma registered_extension_tokens (filters : list string) known filt ext :
  known_extensions filters = Ok known ->
  filt ∈ filters ->
  _extension_from_filter filt = Ok (Some ext) ->
  Str.contains ext os_path.sep = false ->
  Forall (fun t => t <> "") (tail (Str.split ext ".")) ->
  exists ts : list string,
    ext = dotted ts /\ Forall (fun t => t ∈ known /\ plain_token t = true) ts.
Proof.
  intros Hk Hin Hext Hsep Hpieces.
  destruct (split_dotted ext) as (w & ws & Hsplit & Hs & Hall).
  pose proof Hext as Hinv.
  apply extension_from_filter_inv in Hinv
    as (_ & _ & body & _ & _ & _ & _ & _ & [= Hbody]).
  assert (w = "") as ->.
  { rewrite Hbody in Hsplit. cbn in Hsplit. by injection Hsplit as <- _. }
  rewrite app_nil_l in Hs. exists ws. split; [done|].
  rewrite Hsplit in Hpieces. cbn [tail] in Hpieces.
  apply Forall_cons in Hall as [_ Hall].
  rewrite Hs in Hsep. apply dotted_pieces_no in Hsep.
  apply Forall_forall. intros t Ht. split.
  - apply (known_extensions_spec _ _ Hk). split.
    + by apply (proj1 (Forall_forall _ _) Hpieces).
    + exists filt, ext. split; [done|]. split; [done|].
      rewrite Hsplit. by right.
  - unfold plain_token.
    rewrite (proj1 (Forall_forall _ _) Hall t Ht).
    by rewrite (proj1 (Forall_forall _ _) Hsep t Ht).
Qed.

(** Replacing the extension of a name that already went through
    [_replace_extension] is replacing the extension of the original. *)
Lemma replace_extension_switch (filters : list string) known p
    (ts : list string) (e2 : string) fuel :
  known_extensions filters = Ok known ->
  Forall (fun t => t ∈ known /\ plain_token t = true) ts ->
  has_stem p = true ->
  (String.length p + String.length (dotted ts) < fuel)%nat ->
  exists r1 r2,
    _replace_extension fuel filters p (dotted ts) = Some (Ok r1) /\
    _replace_extension fuel filters r1 e2 = Some (Ok r2) /\
    _replace_extension fuel filters p e2 = Some (Ok r2).
Proof.
  intros Hk Hts Hst Hlen.
  pose proof (known_extensions_no_empty _ _ Hk) as Hempty.
  assert (Hlen0 : (String.length p < fuel)%nat) by lia.
  destruct (strip_known_terminates known p fuel Hempty Hlen0) as [base Hb].
  pose proof (strip_known_stripped _ _ _ _ Hb) as Hs.
  assert (Hagain : stripped known (base +:+ dotted ts) base).
  { apply stripped_again; [|by eapply stripped_last_token|done].
    by eapply stripped_has_stem. }
  exists (base +:+ dotted ts), (base +:+ e2).
  unfold _replace_extension. rewrite Hk.
  rewrite (stripped_normalize fuel p (dotted ts) known base Hempty Hs Hlen0).
  rewrite (stripped_normalize fuel p e2 known base Hempty Hs Hlen0).
  rewrite (stripped_normalize fuel _ e2 known base Hempty Hagain); [done|].
  rewrite length_app. pose proof (length_dotted_stripped _ _ _ Hs). lia.
Qed.

Lemma no_ext_filters_fold (darwin : bool) (filters : list string)
    (m0 : gmap string string) key filt :
  foldl (fun m f => <[NativeDialog.remove_star darwin f := f]> m) m0 filters
    !! key = Some filt ->
  m0 !! key = Some filt \/
  (filt ∈ filters /\ NativeDialog.remove_star darwin filt = key).
Proof.
  revert m0. induction filters as [|f filters IH]; intros m0; [by left|].
  cbn [foldl]. intros [H | [Hin Hkey]]%IH.
  - destruct (decide (NativeDialog.remove_star darwin f = key)) as [Heq|Hne].
    + rewrite Heq, lookup_insert_eq in H. injection H as <-.
      right. split; [left|done].
    + rewrite lookup_insert_ne in H by done. by left.
  - right. split; [by right|done].
Qed.

(** X16: when [get_save_filename] of macOS and Windows returns, it returns
    either two empty strings (the dialog was rejected) or a file name and a
    registered filter such that: the dialog showed that filter with its
    star removed; the name is a stripped name followed by the extension of
    the filter, so it carries that extension; and the file does not exist
    or the user agreed to overwrite it. *)
Theorem native_get_save_filename_result (darwin : bool) (filters : list string)
    (path_exists overwrite : string -> bool) fuel
    (answers : list dialog_result) (name flt : string) :
  NativeDialog.get_save_filename darwin filters path_exists overwrite fuel answers
  = Some (Ok (name, flt)) ->
  (name = "" /\ flt = "") \/
  (flt ∈ filters /\
   (exists file, Accepted file (NativeDialog.remove_star darwin flt) ∈ answers /\
    exists known base ext,
      known_extensions filters = Ok known /\
      _extension_from_filter flt = Ok (Some ext) /\
      stripped known file base /\ name = base +:+ ext) /\
   (path_exists name = false \/ overwrite name = true)).
Proof.
  induction answers as [|a answers IH]; [done|]. cbn [NativeDialog.get_save_filename].
  destruct a as [|file display]; [intros [= <- <-]; by left|].
  destruct (NativeDialog.no_ext_filters darwin filters !! display)
    as [selected|] eqn:Hlook; [|done].
  destruct (_extension_from_filter selected) as [ext|] eqn:Hext; [|done].
  destruct (_replace_extension_value fuel filters file ext)
    as [[filename|]|] eqn:Hrep; [|done|done].
  destruct (negb (path_exists filename) || overwrite filename) eqn:Hok.
  - intros [= <- <-]. right.
    apply no_ext_filters_fold in Hlook as [Hlook | [Hin Hkey]];
      [by rewrite lookup_empty in Hlook|].
    split; [done|]. split.
    + exists file. rewrite Hkey. split; [left|].
      pose proof Hext as Hinv.
      apply extension_from_filter_inv in Hinv
        as (_ & _ & body & _ & _ & _ & _ & _ & ->).
      cbn [_replace_extension_value] in Hrep. unfold _replace_extension in Hrep.
      destruct (known_extensions filters) as [known|] eqn:Hk; [|done].
      destruct (normalize fuel file (String "." body) known) as [r|] eqn:Hn; [|done].
      injection Hrep as <-.
      apply normalize_stripped in Hn as (base & Hs & ->).
      by exists known, base, (String "." body).
    + apply orb_prop in Hok as [Hex | Hov]; [left | by right].
      by apply negb_true_iff.
  - intros [Hc | (Hin & (f & Hf & Hrest) & Hov)]%IH; [by left|]. right.
    split; [done|]. split; [|done]. exists f. split; [by right|done].
Qed.

(** X18: the dictionary of displayed filters gives the filter back. When
    no other valid filter has the same label once the star is removed, the
    entry found under the displayed label of a valid filter is that
    filter; on Windows, where the label is displayed as it is, this holds
    for every valid filter. *)
Theorem no_ext_filters_round_trip (darwin : bool) (filters : list string) filt :
  filt ∈ filters ->
  (forall f, f ∈ filters ->
     NativeDialog.remove_star darwin f = NativeDialog.remove_star darwin filt ->
     f = filt) ->
  NativeDialog.no_ext_filters darwin filters
    !! NativeDialog.remove_star darwin filt = Some filt /\
  (darwin = false ->
   NativeDialog.no_ext_filters false filters !! filt = Some filt).
Proof.
  assert (Hfold : forall (dw : bool) (fs : list string) (m0 : gmap string string),
    filt ∈ fs \/ m0 !! NativeDialog.remove_star dw filt = Some filt ->
    (forall f, f ∈ fs ->
       NativeDialog.remove_star dw f = NativeDialog.remove_star dw filt -> f = filt) ->
    foldl (fun m f => <[NativeDialog.remove_star dw f := f]> m) m0 fs
      !! NativeDialog.remove_star dw filt = Some filt).
  { intros dw fs. induction fs as [|a fs IH]; intros m0 Hhave Hinj.
    - destruct Hhave as [?%elem_of_nil | ?]; done.
    - cbn [foldl]. apply IH.
      + destruct (decide (NativeDialog.remove_star dw a
                          = NativeDialog.remove_star dw filt)) as [Heq|Hne].
        * right. rewrite Heq, lookup_insert_eq. f_equal.
          apply Hinj; [left|done].
        * destruct Hhave as [[-> | Hin]%elem_of_cons | Hm]; [done|by left|].
          right. by rewrite lookup_insert_ne.
      + intros f Hf. apply Hinj. by right. }
  intros Hin Hinj. split.
  - apply Hfold; [by left|done].
  - intros ->. apply (Hfold false filters ∅); [by left|].
    intros f _ Hf. exact Hf.
Qed.

Section LinuxDialog.

Context {Q : Type}.
Variable super_selectFile : string -> Q -> Q.
Variable super_selectNameFilter : string -> Q -> Q.
Variable selectedFiles : Q -> list string.
Variable isdir : string -> bool.
Variable filters : list string.
Variable fuel : nat.

Local Abbreviation selectNameFilter :=
  (SaveFileDialog.selectNameFilter super_selectFile super_selectNameFilter
     selectedFiles isdir filters fuel).

(** Selecting a filter whose label parses, on a dialog that shows a file
    which is not a directory: the suffix becomes the extension and the
    file is shown with its extension replaced. *)
Lemma selectNameFilter_shown (dlg : SaveFileDialog.dialog Q) flt ext file rest r :
  (forall name q, selectedFiles (super_selectFile name q) = [name]) ->
  (forall f q, selectedFiles (super_selectNameFilter f q) = selectedFiles q) ->
  _extension_from_filter flt = Ok (Some ext) ->
  selectedFiles (SaveFileDialog.qt dlg) = file :: rest ->
  isdir file = false ->
  _replace_extension fuel filters file ext = Some (Ok r) ->
  exists d,
    selectNameFilter flt dlg = Some (Ok d) /\
    SaveFileDialog.suffix d = Some ext /\
    selectedFiles (SaveFileDialog.qt d) = [r].
Proof.
  intros Hsel Hflt Hext Hfiles Hdir Hrep.
  unfold SaveFileDialog.selectNameFilter, SaveFileDialog.updateDefaultExtension.
  rewrite Hext. cbn [SaveFileDialog.qt]. rewrite Hflt, Hfiles, Hdir.
  cbn [negb]. unfold SaveFileDialog.selectFile.
  cbn [SaveFileDialog.suffix SaveFileDialog.qt _replace_extension_value].
  rewrite Hrep. eexists. split; [reflexivity|]. split; [reflexivity|].
  cbn [SaveFileDialog.qt]. apply Hsel.
Qed.


End LinuxDialog.

End DialogFacts.

(** ** Instances of the further properties *)

Lemma try_save_unregistered_filter_witness :
  let self := Samples.a_widget (Some 7%nat) "Excel (*.xlsx)" "out.xlsx" true ∅ in
  data self = Some 7%nat /\ filename self <> "" /\
  filters_lookup Samples.filters (filter self) = None /\
  exists self',
    save_file Samples.filters Samples.cancel self
    = Raises (KeyError "Excel (*.xlsx)") self' /\
    calls self' = [].
Proof.
  intros self.
  assert (H2 : filename self <> "") by discriminate.
  split; [reflexivity|]. split; [exact H2|]. split; [reflexivity|].
  destruct (try_save_unregistered_filter Samples.filters Samples.cancel self 7%nat
              eq_refl H2 eq_refl) as (self' & _ & Hs & Hc & _).
  exists self'. by split.
Defined.

Lemma try_save_success_witness :
  let self :=
    Samples.a_widget (Some 7%nat) Samples.tab_filter "out.tab" false
      {[ general_error := "disk full" ]} in
  data self = Some 7%nat /\ filename self <> "" /\
  filters_lookup Samples.good_filters (filter self) = Some Samples.good_writer /\
  Samples.good_writer (filename self) (data self) = None /\
  exists self',
    _try_save Samples.good_filters self = Returns self' /\
    Error self' !! general_error = None.
Proof.
  intros self.
  assert (H2 : filename self <> "") by discriminate.
  split; [reflexivity|]. split; [exact H2|]. split; [reflexivity|].
  split; [reflexivity|].
  destruct (try_save_success Samples.good_filters self 7%nat Samples.good_writer
              eq_refl H2 eq_refl eq_refl) as (self' & Hr & He & _).
  exists self'. by split.
Defined.

Lemma save_file_as_accepted_witness :
  let self := Samples.a_widget (Some 7%nat) Samples.csv_filter "" false ∅ in
  let dialog := Samples.accept "/tmp/x.tab" Samples.tab_filter in
  let self' := outcome_state (save_file_as Samples.good_filters dialog self) in
  dialog self = Accepted "/tmp/x.tab" Samples.tab_filter /\
  filename self' = "/tmp/x.tab" /\ filter self' = Samples.tab_filter /\
  bt_save self' = "Save as x.tab".
Proof.
  intros self dialog self'.
  assert (Hf : "/tmp/x.tab" <> "") by discriminate.
  split; [reflexivity|].
  destruct (save_file_as_accepted Samples.good_filters dialog self
              "/tmp/x.tab" Samples.tab_filter eq_refl Hf)
    as (H1 & H2 & _ & _ & H5 & _).
  split; [exact H1|]. split; [exact H2|]. exact H5.
Defined.

Lemma on_new_input_auto_save_witness :
  let self := Samples.a_widget None Samples.tab_filter "out.tab" true ∅ in
  auto_save self = true /\ filename self <> "" /\ data self = None /\
  exists self',
    on_new_input Samples.good_filters Samples.cancel self = Returns self' /\
    calls self' = [] /\ Error self' = ∅.
Proof.
  intros self.
  assert (H2 : filename self <> "") by discriminate.
  split; [reflexivity|]. split; [exact H2|]. split; [reflexivity|].
  destruct (on_new_input_auto_save Samples.good_filters Samples.cancel self
              eq_refl H2) as [H _].
  destruct (H eq_refl) as (self' & Hr & Hc & He & _).
  exists self'. by repeat split.
Defined.

Lemma initial_start_dir_spec_witness :
  let self := Samples.a_widget None Samples.tab_filter "" false ∅ in
  "/home/user/" <> "" /\
  initial_start_dir (fun _ => false) "/home/user/" self <> "".
Proof.
  intros self.
  assert (H : "/home/user/" <> "") by discriminate.
  split; [exact H|].
  exact (proj1 (initial_start_dir_spec (fun _ => false) "/home/user/" self H)).
Defined.

Lemma sample_known : known_extensions Samples.labels = Ok {[ "tab"; "gz" ]}.
Proof. vm_compute. reflexivity. Qed.

Lemma replace_extension_keeps_directory_witness :
  (String.length "/data/iris.tab.gz" < 18)%nat /\
  Str.contains ".csv" os_path.sep = false /\
  exists r,
    _replace_extension 18 Samples.labels "/data/iris.tab.gz" ".csv" = Some (Ok r) /\
    fst (os_path.split r) = fst (os_path.split "/data/iris.tab.gz").
Proof.
  assert (Hlen : (String.length "/data/iris.tab.gz" < 18)%nat) by (cbn; lia).
  split; [exact Hlen|]. split; [reflexivity|].
  exact (replace_extension_keeps_directory Samples.labels _ "/data/iris.tab.gz"
           ".csv" 18%nat sample_known Hlen eq_refl).
Defined.

Lemma replace_extension_prefix_witness :
  (String.length "tab.tab" < 8)%nat /\
  exists base (ts : list string),
    _replace_extension 8 Samples.labels "tab.tab" ".gz" = Some (Ok (base +:+ ".gz")) /\
    "tab.tab" = base +:+ dotted ts /\ base <> "".
Proof.
  assert (Hlen : (String.length "tab.tab" < 8)%nat) by (cbn; lia).
  split; [exact Hlen|].
  destruct (replace_extension_prefix Samples.labels _ "tab.tab" ".gz" 8%nat
              sample_known Hlen) as (base & ts & Hr & Hp & _ & _ & Hst).
  exists base, ts. split; [exact Hr|]. split; [exact Hp|].
  exact (proj2 (Hst eq_refl)).
Defined.

Lemma normalize_switch_witness :
  has_stem "iris.csv" = true /\ (String.length "iris.csv" < 9)%nat /\
  exists r,
    normalize 9 "iris.csv" ".tab" {[ "tab"; "gz" ]} = Some r /\
    normalize (S (String.length r)) r ".tab.gz" {[ "tab"; "gz" ]}
    = normalize 9 "iris.csv" ".tab.gz" {[ "tab"; "gz" ]}.
Proof.
  assert (H2 : Forall (fun t => t ∈ ({[ "tab"; "gz" ]} : gset string)
                               /\ plain_token t = true) ["tab"]).
  { repeat constructor; try reflexivity;
      rewrite elem_of_union, !elem_of_singleton; auto. }
  assert (H4 : (String.length "iris.csv" < 9)%nat) by (cbn; lia).
  split; [reflexivity|]. split; [exact H4|].
  destruct (normalize_switch {[ "tab"; "gz" ]} "iris.csv" ["tab"] 9%nat
              tab_gz_no_empty H2 (or_intror eq_refl) H4) as (r & Hr & Hsw).
  exists r. split; [exact Hr|].
  exact (proj2 (Hsw ".tab.gz" (S (String.length r)) (Nat.lt_succ_diag_r _))).
Defined.

Lemma replace_extension_registered_stable_witness :
  "Compressed tab-separated values (*.tab.gz)" ∈ Samples.labels /\
  _extension_from_filter "Compressed tab-separated values (*.tab.gz)"
  = Ok (Some ".tab.gz") /\
  has_stem "/data/iris.tab" = true /\
  exists r,
    _replace_extension 15 Samples.labels "/data/iris.tab" ".tab.gz" = Some (Ok r) /\
    _replace_extension (S (String.length r)) Samples.labels r ".tab.gz"
    = Some (Ok r).
Proof.
  assert (Hin : "Compressed tab-separated values (*.tab.gz)" ∈ Samples.labels)
    by (right; left).
  assert (Hpieces : Forall (fun t : string => t <> "")
                      (tail (Str.split ".tab.gz" "."))).
  { cbn. repeat constructor; discriminate. }
  assert (Hlen : (String.length "/data/iris.tab" < 15)%nat) by (cbn; lia).
  split; [exact Hin|]. split; [reflexivity|]. split; [reflexivity|].
  destruct (replace_extension_registered_stable Samples.labels _ _ ".tab.gz"
              "/data/iris.tab" 15%nat sample_known Hin eq_refl eq_refl
              Hpieces eq_refl Hlen) as (r & Hr & Hagain).
  exists r. split; [exact Hr|]. apply Hagain. lia.
Defined.

Lemma extension_from_filter_without_star_witness :
  Str.contains "tab.gz" "(" = false /\ Str.contains "tab.gz" re.newline = false /\
  _extension_from_filter ("Compressed" +:+ " (." +:+ "tab.gz" +:+ ")")
  = Ok (Some ("." +:+ "tab.gz")).
Proof.
  split; [reflexivity|]. split; [reflexivity|].
  exact (proj1 (extension_from_filter_without_star "Compressed" "tab.gz"
                  eq_refl eq_refl)).
Defined.

Lemma known_extensions_tokens_witness :
  known_extensions Samples.labels = Ok {[ "tab"; "gz" ]} /\
  forall t, t ∈ ({[ "tab"; "gz" ]} : gset string) ->
            t <> "" /\ Str.contains t "." = false.
Proof.
  split; [exact sample_known|].
  exact (proj1 (known_extensions_tokens Samples.labels _ sample_known)).
Defined.

Lemma native_get_save_filename_result_witness :
  let answers :=
    [Accepted "/tmp/old.tab" "Tab-separated values (.tab)";
     Accepted "/tmp/new.csv" "Compressed tab-separated values (.tab.gz)"] in
  let exists_ := String.eqb "/tmp/old.tab" in
  NativeDialog.get_save_filename true Samples.labels exists_ (fun _ => false) 20
    answers
  = Some (Ok ("/tmp/new.csv.tab.gz", "Compressed tab-separated values (*.tab.gz)")) /\
  exists_ "/tmp/new.csv.tab.gz" = false.
Proof.
  intros answers exists_.
  assert (H : NativeDialog.get_save_filename true Samples.labels exists_
                (fun _ => false) 20 answers
              = Some (Ok ("/tmp/new.csv.tab.gz",
                          "Compressed tab-separated values (*.tab.gz)")))
    by (vm_compute; reflexivity).
  split; [exact H|].
  destruct (native_get_save_filename_result _ _ _ _ _ _ _ _ H)
    as [[Hn _] | (_ & _ & [He | Ho])]; [discriminate Hn | exact He | discriminate Ho].
Defined.

Lemma no_ext_filters_round_trip_witness :
  "Tab-separated values (*.tab)" ∈ Samples.labels /\
  NativeDialog.no_ext_filters true Samples.labels
    !! NativeDialog.remove_star true "Tab-separated values (*.tab)"
  = Some "Tab-separated values (*.tab)".
Proof.
  assert (Hin : "Tab-separated values (*.tab)" ∈ Samples.labels) by left.
  split; [exact Hin|].
  refine (proj1 (no_ext_filters_round_trip true Samples.labels _ Hin _)).
  intros f [-> | [-> | Hnil%elem_of_nil]%elem_of_cons]%elem_of_cons;
    [done | discriminate | done].
Defined.

